(** * The calcite-panel component

    A shallow embedding of
    [packages/calcite-components/src/components/panel/panel.tsx]: the
    slot presence tracker, the scroll affordance monitor, the composition
    renderer and the close/open sequencer, followed by the properties the
    specification states about them.

    Conventions.
    - A JavaScript boolean is a [bool]; a possibly-undefined string
      property is an [option string]; a DOM measurement is a [JsValue].
    - DOM elements handed to the component through slots are objects the
      handlers mutate in place, so they live in a store ([Document]) and
      slots hold references to them.
    - The component framework is modelled by its documented behaviour: a
      write to a watched property calls the watcher synchronously, and only
      when the value changes; [await] parks the rest of an async function
      until the awaited promise settles.
    - Properties that are only forwarded as attributes (messages, scale,
      headingLevel, collapseDirection, menuOpen, overlayPositioning) are
      left out of the record and of the render tree. *)

From Stdlib Require Import ZArith Lia Ascii String.
From stdpp Require Import base strings gmap list.

Local Set Warnings "-register-all".

Local Open Scope Z_scope.
Local Open Scope string_scope.
Local Open Scope list_scope.

(** ** DOM values *)

Module Dom.

(** The result of reading a numeric DOM property: [typeof v] is either
    ["number"] or something else. Layout measurements are integers. *)
Inductive JsValue : Type :=
| JNumber (n : Z)
| JUndefined.

Definition typeof_number (v : JsValue) : bool :=
  match v with JNumber _ => true | JUndefined => false end.

(** A light-DOM element assigned to one of the panel's slots. [layout] is
    the property of [calcite-action-bar]; other elements leave it
    undefined. *)
Record Element : Type := mkElement {
  localName : string;
  layout : option string;
  embedded : option bool
}.

Definition set_layout (v : string) (el : Element) : Element :=
  {| localName := localName el; layout := Some v;
     embedded := embedded el |}.

Definition set_embedded (v : bool) (el : Element) : Element :=
  {| localName := localName el; layout := layout el;
     embedded := Some v |}.

Definition upper (c : ascii) : ascii :=
  let n := nat_of_ascii c in
  if (Nat.leb 97 n && Nat.leb n 122)%bool
  then ascii_of_nat (n - 32) else c.

Fixpoint toUpperCase (s : string) : string :=
  match s with
  | EmptyString => EmptyString
  | String c s' => String (upper c) (toUpperCase s')
  end.

(** [el.nodeName] of an HTML element: its local name in upper case. *)
Definition nodeName (el : Element) : string := toUpperCase (localName el).

(** [el.matches(sel)] for a type selector [sel]. *)
Definition matches (sel : string) (el : Element) : bool :=
  String.eqb (localName el) sel.

Definition NodeRef : Type := nat.

(** The store of light-DOM elements, by reference. *)
Abbreviation Document := (gmap nat Element).

(** The scrollable content wrapper with its attribute map. *)
Record ScrollEl : Type := mkScrollEl {
  scrollHeight : JsValue;
  offsetHeight : JsValue;
  attributes : gmap string string
}.

Definition setAttribute (k v : string) (el : ScrollEl) : ScrollEl :=
  {| scrollHeight := scrollHeight el;
     offsetHeight := offsetHeight el;
     attributes := <[k := v]> (attributes el) |}.

Definition removeAttribute (k : string) (el : ScrollEl) : ScrollEl :=
  {| scrollHeight := scrollHeight el;
     offsetHeight := offsetHeight el;
     attributes := delete k (attributes el) |}.

Definition getAttribute (k : string) (el : ScrollEl) : option string :=
  attributes el !! k.

(** A [<slot>] element: the references of the elements currently
    assigned to it, in document order. *)
Record HTMLSlotElement : Type := mkSlot {
  assignedElements : list NodeRef
}.

(** A [slotchange] event; its target is the slot that changed. *)
Record SlotChangeEvent : Type := mkSlotChange {
  target : HTMLSlotElement
}.

(** A [keydown] event. *)
Record KeyboardEvent : Type := mkKeyboardEvent {
  key : string;
  defaultPrevented : bool
}.

Definition preventDefault (e : KeyboardEvent) : KeyboardEvent :=
  {| key := key e; defaultPrevented := true |}.

(** Modelled from the spec: [slotChangeGetAssignedElements] of
    [utils/dom], which is not among the sources. The spec (4.1) has the
    handlers "inspect currently assigned elements" of the slot that
    raised the notification. *)
Definition slotChangeGetAssignedElements (event : SlotChangeEvent)
  : list NodeRef :=
  assignedElements (target event).

(** Modelled from the spec: [slotChangeHasAssignedElement] of
    [utils/dom], which is not among the sources. The spec (4.1) has it
    answer "has at least one assigned element". *)
Definition slotChangeHasAssignedElement (event : SlotChangeEvent) : bool :=
  match slotChangeGetAssignedElements event with
  | [] => false
  | _ :: _ => true
  end.

End Dom.
Import Dom.

(** ** The close guard *)

(** The fate of a promise: it fulfils, it rejects with a reason, or it
    never settles. *)
Inductive Promise : Type :=
| Fulfils
| Rejects (reason : string)
| Pends.

(** What calling a function of type [() => Promise<void>] does: it throws
    before returning, or it returns a promise. *)
Inductive GuardResult : Type :=
| Throws (reason : string)
| Returns (p : Promise).

Definition Guard : Type := unit -> GuardResult.

(** ** Component state *)

(** The [@Prop] and [@State] members of the class, and the [panelScrollEl]
    reference. *)
Record Panel : Type := mkPanel {
  beforeClose : option Guard;
  closed : bool;
  disabled : bool;
  closable : bool;
  collapsed : bool;
  collapsible : bool;
  loading : bool;
  heading : option string;
  description : option string;
  panelScrollEl : option ScrollEl;
  isClosed : bool;
  hasStartActions : bool;
  hasEndActions : bool;
  hasMenuItems : bool;
  hasHeaderContent : bool;
  hasActionBar : bool;
  hasContentBottom : bool;
  hasContentTop : bool;
  hasFab : bool;
  hasFooterActions : bool;
  hasFooterContent : bool;
  hasFooterEndContent : bool;
  hasFooterStartContent : bool;
  showHeaderContent : bool
}.

Definition set_closed (v : bool) (p : Panel) : Panel :=
  {| beforeClose := beforeClose p; closed := v; disabled := disabled p;
     closable := closable p; collapsed := collapsed p;
     collapsible := collapsible p; loading := loading p;
     heading := heading p; description := description p;
     panelScrollEl := panelScrollEl p; isClosed := isClosed p;
     hasStartActions := hasStartActions p; hasEndActions := hasEndActions p;
     hasMenuItems := hasMenuItems p; hasHeaderContent := hasHeaderContent p;
     hasActionBar := hasActionBar p; hasContentBottom := hasContentBottom p;
     hasContentTop := hasContentTop p; hasFab := hasFab p;
     hasFooterActions := hasFooterActions p;
     hasFooterContent := hasFooterContent p;
     hasFooterEndContent := hasFooterEndContent p;
     hasFooterStartContent := hasFooterStartContent p;
     showHeaderContent := showHeaderContent p |}.

Definition set_collapsed (v : bool) (p : Panel) : Panel :=
  {| beforeClose := beforeClose p; closed := closed p;
     disabled := disabled p; closable := closable p; collapsed := v;
     collapsible := collapsible p; loading := loading p;
     heading := heading p; description := description p;
     panelScrollEl := panelScrollEl p; isClosed := isClosed p;
     hasStartActions := hasStartActions p; hasEndActions := hasEndActions p;
     hasMenuItems := hasMenuItems p; hasHeaderContent := hasHeaderContent p;
     hasActionBar := hasActionBar p; hasContentBottom := hasContentBottom p;
     hasContentTop := hasContentTop p; hasFab := hasFab p;
     hasFooterActions := hasFooterActions p;
     hasFooterContent := hasFooterContent p;
     hasFooterEndContent := hasFooterEndContent p;
     hasFooterStartContent := hasFooterStartContent p;
     showHeaderContent := showHeaderContent p |}.

Definition set_panelScrollEl (v : option ScrollEl) (p : Panel) : Panel :=
  {| beforeClose := beforeClose p; closed := closed p;
     disabled := disabled p; closable := closable p;
     collapsed := collapsed p; collapsible := collapsible p;
     loading := loading p; heading := heading p;
     description := description p; panelScrollEl := v;
     isClosed := isClosed p; hasStartActions := hasStartActions p;
     hasEndActions := hasEndActions p; hasMenuItems := hasMenuItems p;
     hasHeaderContent := hasHeaderContent p; hasActionBar := hasActionBar p;
     hasContentBottom := hasContentBottom p;
     hasContentTop := hasContentTop p; hasFab := hasFab p;
     hasFooterActions := hasFooterActions p;
     hasFooterContent := hasFooterContent p;
     hasFooterEndContent := hasFooterEndContent p;
     hasFooterStartContent := hasFooterStartContent p;
     showHeaderContent := showHeaderContent p |}.

Definition set_isClosed (v : bool) (p : Panel) : Panel :=
  {| beforeClose := beforeClose p; closed := closed p;
     disabled := disabled p; closable := closable p;
     collapsed := collapsed p; collapsible := collapsible p;
     loading := loading p; heading := heading p;
     description := description p; panelScrollEl := panelScrollEl p;
     isClosed := v; hasStartActions := hasStartActions p;
     hasEndActions := hasEndActions p; hasMenuItems := hasMenuItems p;
     hasHeaderContent := hasHeaderContent p; hasActionBar := hasActionBar p;
     hasContentBottom := hasContentBottom p;
     hasContentTop := hasContentTop p; hasFab := hasFab p;
     hasFooterActions := hasFooterActions p;
     hasFooterContent := hasFooterContent p;
     hasFooterEndContent := hasFooterEndContent p;
     hasFooterStartContent := hasFooterStartContent p;
     showHeaderContent := showHeaderContent p |}.

Definition set_hasStartActions (v : bool) (p : Panel) : Panel :=
  {| beforeClose := beforeClose p; closed := closed p;
     disabled := disabled p; closable := closable p;
     collapsed := collapsed p; collapsible := collapsible p;
     loading := loading p; heading := heading p;
     description := description p; panelScrollEl := panelScrollEl p;
     isClosed := isClosed p; hasStartActions := v;
     hasEndActions := hasEndActions p; hasMenuItems := hasMenuItems p;
     hasHeaderContent := hasHeaderContent p; hasActionBar := hasActionBar p;
     hasContentBottom := hasContentBottom p;
     hasContentTop := hasContentTop p; hasFab := hasFab p;
     hasFooterActions := hasFooterActions p;
     hasFooterContent := hasFooterContent p;
     hasFooterEndContent := hasFooterEndContent p;
     hasFooterStartContent := hasFooterStartContent p;
     showHeaderContent := showHeaderContent p |}.

Definition set_hasEndActions (v : bool) (p : Panel) : Panel :=
  {| beforeClose := beforeClose p; closed := closed p;
     disabled := disabled p; closable := closable p;
     collapsed := collapsed p; collapsible := collapsible p;
     loading := loading p; heading := heading p;
     description := description p; panelScrollEl := panelScrollEl p;
     isClosed := isClosed p; hasStartActions := hasStartActions p;
     hasEndActions := v; hasMenuItems := hasMenuItems p;
     hasHeaderContent := hasHeaderContent p; hasActionBar := hasActionBar p;
     hasContentBottom := hasContentBottom p;
     hasContentTop := hasContentTop p; hasFab := hasFab p;
     hasFooterActions := hasFooterActions p;
     hasFooterContent := hasFooterContent p;
     hasFooterEndContent := hasFooterEndContent p;
     hasFooterStartContent := hasFooterStartContent p;
     showHeaderContent := showHeaderContent p |}.

Definition set_hasMenuItems (v : bool) (p : Panel) : Panel :=
  {| beforeClose := beforeClose p; closed := closed p;
     disabled := disabled p; closable := closable p;
     collapsed := collapsed p; collapsible := collapsible p;
     loading := loading p; heading := heading p;
     description := description p; panelScrollEl := panelScrollEl p;
     isClosed := isClosed p; hasStartActions := hasStartActions p;
     hasEndActions := hasEndActions p; hasMenuItems := v;
     hasHeaderContent := hasHeaderContent p; hasActionBar := hasActionBar p;
     hasContentBottom := hasContentBottom p;
     hasContentTop := hasContentTop p; hasFab := hasFab p;
     hasFooterActions := hasFooterActions p;
     hasFooterContent := hasFooterContent p;
     hasFooterEndContent := hasFooterEndContent p;
     hasFooterStartContent := hasFooterStartContent p;
     showHeaderContent := showHeaderContent p |}.

Definition set_hasHeaderContent (v : bool) (p : Panel) : Panel :=
  {| beforeClose := beforeClose p; closed := closed p;
     disabled := disabled p; closable := closable p;
     collapsed := collapsed p; collapsible := collapsible p;
     loading := loading p; heading := heading p;
     description := description p; panelScrollEl := panelScrollEl p;
     isClosed := isClosed p; hasStartActions := hasStartActions p;
     hasEndActions := hasEndActions p; hasMenuItems := hasMenuItems p;
     hasHeaderContent := v; hasActionBar := hasActionBar p;
     hasContentBottom := hasContentBottom p;
     hasContentTop := hasContentTop p; hasFab := hasFab p;
     hasFooterActions := hasFooterActions p;
     hasFooterContent := hasFooterContent p;
     hasFooterEndContent := hasFooterEndContent p;
     hasFooterStartContent := hasFooterStartContent p;
     showHeaderContent := showHeaderContent p |}.

Definition set_hasActionBar (v : bool) (p : Panel) : Panel :=
  {| beforeClose := beforeClose p; closed := closed p;
     disabled := disabled p; closable := closable p;
     collapsed := collapsed p; collapsible := collapsible p;
     loading := loading p; heading := heading p;
     description := description p; panelScrollEl := panelScrollEl p;
     isClosed := isClosed p; hasStartActions := hasStartActions p;
     hasEndActions := hasEndActions p; hasMenuItems := hasMenuItems p;
     hasHeaderContent := hasHeaderContent p; hasActionBar := v;
     hasContentBottom := hasContentBottom p;
     hasContentTop := hasContentTop p; hasFab := hasFab p;
     hasFooterActions := hasFooterActions p;
     hasFooterContent := hasFooterContent p;
     hasFooterEndContent := hasFooterEndContent p;
     hasFooterStartContent := hasFooterStartContent p;
     showHeaderContent := showHeaderContent p |}.

Definition set_hasContentBottom (v : bool) (p : Panel) : Panel :=
  {| beforeClose := beforeClose p; closed := closed p;
     disabled := disabled p; closable := closable p;
     collapsed := collapsed p; collapsible := collapsible p;
     loading := loading p; heading := heading p;
     description := description p; panelScrollEl := panelScrollEl p;
     isClosed := isClosed p; hasStartActions := hasStartActions p;
     hasEndActions := hasEndActions p; hasMenuItems := hasMenuItems p;
     hasHeaderContent := hasHeaderContent p; hasActionBar := hasActionBar p;
     hasContentBottom := v; hasContentTop := hasContentTop p;
     hasFab := hasFab p; hasFooterActions := hasFooterActions p;
     hasFooterContent := hasFooterContent p;
     hasFooterEndContent := hasFooterEndContent p;
     hasFooterStartContent := hasFooterStartContent p;
     showHeaderContent := showHeaderContent p |}.

Definition set_hasContentTop (v : bool) (p : Panel) : Panel :=
  {| beforeClose := beforeClose p; closed := closed p;
     disabled := disabled p; closable := closable p;
     collapsed := collapsed p; collapsible := collapsible p;
     loading := loading p; heading := heading p;
     description := description p; panelScrollEl := panelScrollEl p;
     isClosed := isClosed p; hasStartActions := hasStartActions p;
     hasEndActions := hasEndActions p; hasMenuItems := hasMenuItems p;
     hasHeaderContent := hasHeaderContent p; hasActionBar := hasActionBar p;
     hasContentBottom := hasContentBottom p; hasContentTop := v;
     hasFab := hasFab p; hasFooterActions := hasFooterActions p;
     hasFooterContent := hasFooterContent p;
     hasFooterEndContent := hasFooterEndContent p;
     hasFooterStartContent := hasFooterStartContent p;
     showHeaderContent := showHeaderContent p |}.

Definition set_hasFab (v : bool) (p : Panel) : Panel :=
  {| beforeClose := beforeClose p; closed := closed p;
     disabled := disabled p; closable := closable p;
     collapsed := collapsed p; collapsible := collapsible p;
     loading := loading p; heading := heading p;
     description := description p; panelScrollEl := panelScrollEl p;
     isClosed := isClosed p; hasStartActions := hasStartActions p;
     hasEndActions := hasEndActions p; hasMenuItems := hasMenuItems p;
     hasHeaderContent := hasHeaderContent p; hasActionBar := hasActionBar p;
     hasContentBottom := hasContentBottom p;
     hasContentTop := hasContentTop p; hasFab := v;
     hasFooterActions := hasFooterActions p;
     hasFooterContent := hasFooterContent p;
     hasFooterEndContent := hasFooterEndContent p;
     hasFooterStartContent := hasFooterStartContent p;
     showHeaderContent := showHeaderContent p |}.

Definition set_hasFooterActions (v : bool) (p : Panel) : Panel :=
  {| beforeClose := beforeClose p; closed := closed p;
     disabled := disabled p; closable := closable p;
     collapsed := collapsed p; collapsible := collapsible p;
     loading := loading p; heading := heading p;
     description := description p; panelScrollEl := panelScrollEl p;
     isClosed := isClosed p; hasStartActions := hasStartActions p;
     hasEndActions := hasEndActions p; hasMenuItems := hasMenuItems p;
     hasHeaderContent := hasHeaderContent p; hasActionBar := hasActionBar p;
     hasContentBottom := hasContentBottom p;
     hasContentTop := hasContentTop p; hasFab := hasFab p;
     hasFooterActions := v; hasFooterContent := hasFooterContent p;
     hasFooterEndContent := hasFooterEndContent p;
     hasFooterStartContent := hasFooterStartContent p;
     showHeaderContent := showHeaderContent p |}.

Definition set_hasFooterContent (v : bool) (p : Panel) : Panel :=
  {| beforeClose := beforeClose p; closed := closed p;
     disabled := disabled p; closable := closable p;
     collapsed := collapsed p; collapsible := collapsible p;
     loading := loading p; heading := heading p;
     description := description p; panelScrollEl := panelScrollEl p;
     isClosed := isClosed p; hasStartActions := hasStartActions p;
     hasEndActions := hasEndActions p; hasMenuItems := hasMenuItems p;
     hasHeaderContent := hasHeaderContent p; hasActionBar := hasActionBar p;
     hasContentBottom := hasContentBottom p;
     hasContentTop := hasContentTop p; hasFab := hasFab p;
     hasFooterActions := hasFooterActions p; hasFooterContent := v;
     hasFooterEndContent := hasFooterEndContent p;
     hasFooterStartContent := hasFooterStartContent p;
     showHeaderContent := showHeaderContent p |}.

Definition set_hasFooterEndContent (v : bool) (p : Panel) : Panel :=
  {| beforeClose := beforeClose p; closed := closed p;
     disabled := disabled p; closable := closable p;
     collapsed := collapsed p; collapsible := collapsible p;
     loading := loading p; heading := heading p;
     description := description p; panelScrollEl := panelScrollEl p;
     isClosed := isClosed p; hasStartActions := hasStartActions p;
     hasEndActions := hasEndActions p; hasMenuItems := hasMenuItems p;
     hasHeaderContent := hasHeaderContent p; hasActionBar := hasActionBar p;
     hasContentBottom := hasContentBottom p;
     hasContentTop := hasContentTop p; hasFab := hasFab p;
     hasFooterActions := hasFooterActions p;
     hasFooterContent := hasFooterContent p; hasFooterEndContent := v;
     hasFooterStartContent := hasFooterStartContent p;
     showHeaderContent := showHeaderContent p |}.

Definition set_hasFooterStartContent (v : bool) (p : Panel) : Panel :=
  {| beforeClose := beforeClose p; closed := closed p;
     disabled := disabled p; closable := closable p;
     collapsed := collapsed p; collapsible := collapsible p;
     loading := loading p; heading := heading p;
     description := description p; panelScrollEl := panelScrollEl p;
     isClosed := isClosed p; hasStartActions := hasStartActions p;
     hasEndActions := hasEndActions p; hasMenuItems := hasMenuItems p;
     hasHeaderContent := hasHeaderContent p; hasActionBar := hasActionBar p;
     hasContentBottom := hasContentBottom p;
     hasContentTop := hasContentTop p; hasFab := hasFab p;
     hasFooterActions := hasFooterActions p;
     hasFooterContent := hasFooterContent p;
     hasFooterEndContent := hasFooterEndContent p;
     hasFooterStartContent := v; showHeaderContent := showHeaderContent p |}.

Definition set_showHeaderContent (v : bool) (p : Panel) : Panel :=
  {| beforeClose := beforeClose p; closed := closed p;
     disabled := disabled p; closable := closable p;
     collapsed := collapsed p; collapsible := collapsible p;
     loading := loading p; heading := heading p;
     description := description p; panelScrollEl := panelScrollEl p;
     isClosed := isClosed p; hasStartActions := hasStartActions p;
     hasEndActions := hasEndActions p; hasMenuItems := hasMenuItems p;
     hasHeaderContent := hasHeaderContent p; hasActionBar := hasActionBar p;
     hasContentBottom := hasContentBottom p;
     hasContentTop := hasContentTop p; hasFab := hasFab p;
     hasFooterActions := hasFooterActions p;
     hasFooterContent := hasFooterContent p;
     hasFooterEndContent := hasFooterEndContent p;
     hasFooterStartContent := hasFooterStartContent p;
     showHeaderContent := v |}.

(** Writes to the remaining declared properties. *)
Definition set_beforeClose (v : option Guard) (p : Panel) : Panel :=
  {| beforeClose := v; closed := closed p; disabled := disabled p;
     closable := closable p; collapsed := collapsed p;
     collapsible := collapsible p; loading := loading p;
     heading := heading p; description := description p;
     panelScrollEl := panelScrollEl p; isClosed := isClosed p;
     hasStartActions := hasStartActions p; hasEndActions := hasEndActions p;
     hasMenuItems := hasMenuItems p; hasHeaderContent := hasHeaderContent p;
     hasActionBar := hasActionBar p; hasContentBottom := hasContentBottom p;
     hasContentTop := hasContentTop p; hasFab := hasFab p;
     hasFooterActions := hasFooterActions p;
     hasFooterContent := hasFooterContent p;
     hasFooterEndContent := hasFooterEndContent p;
     hasFooterStartContent := hasFooterStartContent p;
     showHeaderContent := showHeaderContent p |}.

Definition set_disabled (v : bool) (p : Panel) : Panel :=
  {| beforeClose := beforeClose p; closed := closed p; disabled := v;
     closable := closable p; collapsed := collapsed p;
     collapsible := collapsible p; loading := loading p;
     heading := heading p; description := description p;
     panelScrollEl := panelScrollEl p; isClosed := isClosed p;
     hasStartActions := hasStartActions p; hasEndActions := hasEndActions p;
     hasMenuItems := hasMenuItems p; hasHeaderContent := hasHeaderContent p;
     hasActionBar := hasActionBar p; hasContentBottom := hasContentBottom p;
     hasContentTop := hasContentTop p; hasFab := hasFab p;
     hasFooterActions := hasFooterActions p;
     hasFooterContent := hasFooterContent p;
     hasFooterEndContent := hasFooterEndContent p;
     hasFooterStartContent := hasFooterStartContent p;
     showHeaderContent := showHeaderContent p |}.

Definition set_closable (v : bool) (p : Panel) : Panel :=
  {| beforeClose := beforeClose p; closed := closed p;
     disabled := disabled p; closable := v; collapsed := collapsed p;
     collapsible := collapsible p; loading := loading p;
     heading := heading p; description := description p;
     panelScrollEl := panelScrollEl p; isClosed := isClosed p;
     hasStartActions := hasStartActions p; hasEndActions := hasEndActions p;
     hasMenuItems := hasMenuItems p; hasHeaderContent := hasHeaderContent p;
     hasActionBar := hasActionBar p; hasContentBottom := hasContentBottom p;
     hasContentTop := hasContentTop p; hasFab := hasFab p;
     hasFooterActions := hasFooterActions p;
     hasFooterContent := hasFooterContent p;
     hasFooterEndContent := hasFooterEndContent p;
     hasFooterStartContent := hasFooterStartContent p;
     showHeaderContent := showHeaderContent p |}.

Definition set_collapsible (v : bool) (p : Panel) : Panel :=
  {| beforeClose := beforeClose p; closed := closed p;
     disabled := disabled p; closable := closable p;
     collapsed := collapsed p; collapsible := v; loading := loading p;
     heading := heading p; description := description p;
     panelScrollEl := panelScrollEl p; isClosed := isClosed p;
     hasStartActions := hasStartActions p; hasEndActions := hasEndActions p;
     hasMenuItems := hasMenuItems p; hasHeaderContent := hasHeaderContent p;
     hasActionBar := hasActionBar p; hasContentBottom := hasContentBottom p;
     hasContentTop := hasContentTop p; hasFab := hasFab p;
     hasFooterActions := hasFooterActions p;
     hasFooterContent := hasFooterContent p;
     hasFooterEndContent := hasFooterEndContent p;
     hasFooterStartContent := hasFooterStartContent p;
     showHeaderContent := showHeaderContent p |}.

Definition set_loading (v : bool) (p : Panel) : Panel :=
  {| beforeClose := beforeClose p; closed := closed p;
     disabled := disabled p; closable := closable p;
     collapsed := collapsed p; collapsible := collapsible p; loading := v;
     heading := heading p; description := description p;
     panelScrollEl := panelScrollEl p; isClosed := isClosed p;
     hasStartActions := hasStartActions p; hasEndActions := hasEndActions p;
     hasMenuItems := hasMenuItems p; hasHeaderContent := hasHeaderContent p;
     hasActionBar := hasActionBar p; hasContentBottom := hasContentBottom p;
     hasContentTop := hasContentTop p; hasFab := hasFab p;
     hasFooterActions := hasFooterActions p;
     hasFooterContent := hasFooterContent p;
     hasFooterEndContent := hasFooterEndContent p;
     hasFooterStartContent := hasFooterStartContent p;
     showHeaderContent := showHeaderContent p |}.

Definition set_heading (v : option string) (p : Panel) : Panel :=
  {| beforeClose := beforeClose p; closed := closed p;
     disabled := disabled p; closable := closable p;
     collapsed := collapsed p; collapsible := collapsible p;
     loading := loading p; heading := v; description := description p;
     panelScrollEl := panelScrollEl p; isClosed := isClosed p;
     hasStartActions := hasStartActions p; hasEndActions := hasEndActions p;
     hasMenuItems := hasMenuItems p; hasHeaderContent := hasHeaderContent p;
     hasActionBar := hasActionBar p; hasContentBottom := hasContentBottom p;
     hasContentTop := hasContentTop p; hasFab := hasFab p;
     hasFooterActions := hasFooterActions p;
     hasFooterContent := hasFooterContent p;
     hasFooterEndContent := hasFooterEndContent p;
     hasFooterStartContent := hasFooterStartContent p;
     showHeaderContent := showHeaderContent p |}.

Definition set_description (v : option string) (p : Panel) : Panel :=
  {| beforeClose := beforeClose p; closed := closed p;
     disabled := disabled p; closable := closable p;
     collapsed := collapsed p; collapsible := collapsible p;
     loading := loading p; heading := heading p; description := v;
     panelScrollEl := panelScrollEl p; isClosed := isClosed p;
     hasStartActions := hasStartActions p; hasEndActions := hasEndActions p;
     hasMenuItems := hasMenuItems p; hasHeaderContent := hasHeaderContent p;
     hasActionBar := hasActionBar p; hasContentBottom := hasContentBottom p;
     hasContentTop := hasContentTop p; hasFab := hasFab p;
     hasFooterActions := hasFooterActions p;
     hasFooterContent := hasFooterContent p;
     hasFooterEndContent := hasFooterEndContent p;
     hasFooterStartContent := hasFooterStartContent p;
     showHeaderContent := showHeaderContent p |}.

(** A freshly constructed component: every member at its initialiser. *)
Definition initial : Panel :=
  {| beforeClose := None; closed := false; disabled := false;
     closable := false; collapsed := false; collapsible := false;
     loading := false; heading := None; description := None;
     panelScrollEl := None; isClosed := false; hasStartActions := false;
     hasEndActions := false; hasMenuItems := false;
     hasHeaderContent := false; hasActionBar := false;
     hasContentBottom := false; hasContentTop := false; hasFab := false;
     hasFooterActions := false; hasFooterContent := false;
     hasFooterEndContent := false; hasFooterStartContent := false;
     showHeaderContent := false |}.

(** ** Slot presence tracker *)

Definition handleHeaderActionsStartSlotChange (event : SlotChangeEvent)
  (p : Panel) : Panel :=
  set_hasStartActions (slotChangeHasAssignedElement event) p.

Definition handleHeaderActionsEndSlotChange (event : SlotChangeEvent)
  (p : Panel) : Panel :=
  set_hasEndActions (slotChangeHasAssignedElement event) p.

Definition handleHeaderMenuActionsSlotChange (event : SlotChangeEvent)
  (p : Panel) : Panel :=
  set_hasMenuItems (slotChangeHasAssignedElement event) p.

(** [el?.matches("calcite-action-bar")] on a reference: a reference that
    resolves to nothing is falsy. *)
Definition isActionBar (doc : Document) (r : NodeRef) : bool :=
  match doc !! r with
  | Some el => matches "calcite-action-bar" el
  | None => false
  end.

(** [actionBars.forEach((actionBar) => (actionBar.layout = "horizontal"))]:
    each referenced object is updated in the store. *)
Definition forEach_setLayout (refs : list NodeRef) (doc : Document)
  : Document :=
  foldl (fun d r => alter (set_layout "horizontal") r d) doc refs.

Definition handleActionBarSlotChange (event : SlotChangeEvent)
  (p : Panel) (doc : Document) : Panel * Document :=
  let actionBars :=
    List.filter (isActionBar doc) (slotChangeGetAssignedElements event) in
  let doc' := forEach_setLayout actionBars doc in
  (set_hasActionBar (negb (Nat.eqb (length actionBars) 0)) p, doc').

Definition handleHeaderContentSlotChange (event : SlotChangeEvent)
  (p : Panel) : Panel :=
  set_hasHeaderContent (slotChangeHasAssignedElement event) p.

Definition handleFabSlotChange (event : SlotChangeEvent) (p : Panel)
  : Panel :=
  set_hasFab (slotChangeHasAssignedElement event) p.

Definition handleFooterActionsSlotChange (event : SlotChangeEvent)
  (p : Panel) : Panel :=
  set_hasFooterActions (slotChangeHasAssignedElement event) p.

Definition handleFooterEndSlotChange (event : SlotChangeEvent) (p : Panel)
  : Panel :=
  set_hasFooterEndContent (slotChangeHasAssignedElement event) p.

Definition handleFooterStartSlotChange (event : SlotChangeEvent)
  (p : Panel) : Panel :=
  set_hasFooterStartContent (slotChangeHasAssignedElement event) p.

Definition handleFooterSlotChange (event : SlotChangeEvent) (p : Panel)
  : Panel :=
  set_hasFooterContent (slotChangeHasAssignedElement event) p.

Definition contentBottomSlotChangeHandler (event : SlotChangeEvent)
  (p : Panel) : Panel :=
  set_hasContentBottom (slotChangeHasAssignedElement event) p.

Definition contentTopSlotChangeHandler (event : SlotChangeEvent)
  (p : Panel) : Panel :=
  set_hasContentTop (slotChangeHasAssignedElement event) p.

(** [slotChangeGetAssignedElements(event)?.map(...)]: every assigned
    [calcite-alert] becomes embedded. *)
Definition handleAlertsSlotChange (event : SlotChangeEvent)
  (doc : Document) : Document :=
  foldl (fun d r =>
           match d !! r with
           | Some el =>
               if String.eqb (nodeName el) "CALCITE-ALERT"
               then <[r := set_embedded true el]> d
               else d
           | None => d
           end)
        doc (slotChangeGetAssignedElements event).

(** ** Scroll affordance monitor *)

Definition resizeHandler (p : Panel) : Panel :=
  match panelScrollEl p with
  | None => p
  | Some el =>
      match scrollHeight el, offsetHeight el with
      | JNumber sh, JNumber oh =>
          let hasScrollingContent := Z.gtb sh oh in
          if hasScrollingContent
          then set_panelScrollEl (Some (setAttribute "tabindex" "0" el)) p
          else set_panelScrollEl (Some (removeAttribute "tabindex" el)) p
      | _, _ => p
      end
  end.

(** ** Render tree *)

(** The keys of the [CSS], [SLOTS] and [IDS] tables of [./resources]. The
    tables themselves are not among the sources; nodes are tagged with the
    keys the component uses, so two nodes carry the same class exactly when
    the source writes the same key. *)
Module CSS.
Inductive Key : Type :=
| actionBarContainer | container | contentBottom | contentTop
| contentWrapper | description | fabContainer | footer | footerActions
| footerContent | footerEnd | footerStart | header | headerActions
| headerActionsEnd | headerActionsStart | headerContainer
| headerContainerBorderEnd | headerContent | heading.

#[global] Instance Key_eq_dec : EqDecision Key.
Proof. solve_decision. Defined.
End CSS.

Module SLOTS.
Inductive Name : Type :=
| actionBar | alerts | contentBottom | contentTop | fab | footer
| footerActions | footerEnd | footerStart | headerActionsEnd
| headerActionsStart | headerContent | headerMenuActions
| actionMenuTrigger.

#[global] Instance Name_eq_dec : EqDecision Name.
Proof. solve_decision. Defined.
End SLOTS.

Module IDS.
Inductive Id : Type := close | collapse.

#[global] Instance Id_eq_dec : EqDecision Id.
Proof. solve_decision. Defined.
End IDS.

(** The methods the render tree installs as event listeners. *)
Inductive Handler : Type :=
| H_collapse
| H_handleUserClose
| H_panelKeyDownHandler
| H_panelScrollHandler
| H_handleHeaderActionsStartSlotChange
| H_handleHeaderActionsEndSlotChange
| H_handleHeaderMenuActionsSlotChange
| H_handleActionBarSlotChange
| H_handleHeaderContentSlotChange
| H_handleFabSlotChange
| H_handleFooterActionsSlotChange
| H_handleFooterEndSlotChange
| H_handleFooterStartSlotChange
| H_handleFooterSlotChange
| H_contentBottomSlotChangeHandler
| H_contentTopSlotChangeHandler
| H_handleAlertsSlotChange.

(** One JSX attribute. A class map [{ [k]: cond }] contributes [Class k]
    when [cond] holds. *)
Inductive Attr : Type :=
| Class (k : CSS.Key)
| Hidden (b : bool)
| Key (k : string)
| Id (i : IDS.Id)
| Name (n : SLOTS.Name)
| SlotAttr (n : SLOTS.Name)
| Disabled (b : bool)
| Loading (b : bool)
| OnClick (f : Handler)
| OnKeyDown (f : Handler)
| OnScroll (f : Handler)
| OnSlotchange (f : Handler).

Inductive VNode : Type :=
| Elem (tag : string) (attrs : list Attr) (children : list VNode)
| Text (s : string).

(** The hyperscript function: [null] children are dropped. *)
Definition h (tag : string) (attrs : list Attr)
  (children : list (option VNode)) : VNode :=
  Elem tag attrs (omap id children).

Definition classWhen (cond : bool) (k : CSS.Key) : list Attr :=
  if cond then [Class k] else [].

Definition attrsOf (v : VNode) : list Attr :=
  match v with Elem _ a _ => a | Text _ => [] end.

Definition isHidden (v : VNode) : bool :=
  existsb (fun a => match a with Hidden true => true | _ => false end)
          (attrsOf v).

Definition hasClass (k : CSS.Key) (v : VNode) : bool :=
  existsb (fun a => match a with
                    | Class k' => bool_decide (k = k')
                    | _ => false
                    end) (attrsOf v).

Definition hasKey (k : string) (v : VNode) : bool :=
  existsb (fun a => match a with
                    | Key k' => String.eqb k k'
                    | _ => false
                    end) (attrsOf v).

Definition hasId (i : IDS.Id) (v : VNode) : bool :=
  existsb (fun a => match a with
                    | Id i' => bool_decide (i = i')
                    | _ => false
                    end) (attrsOf v).

Definition onClickOf (v : VNode) : option Handler :=
  head (omap (fun a => match a with OnClick f => Some f | _ => None end)
             (attrsOf v)).

(** The node itself followed by everything below it, in document order. *)
Fixpoint nodes (v : VNode) : list VNode :=
  match v with
  | Elem _ _ children => v :: flat_map nodes children
  | Text _ => [v]
  end.

(** The first node of the tree that satisfies [sel]. *)
Definition query (sel : VNode -> bool) (tree : VNode) : option VNode :=
  List.find sel (nodes tree).

(** The [hidden] attribute of the first node that satisfies [sel]; [None]
    when the tree has no such node. *)
Definition hiddenOf (sel : VNode -> bool) (tree : VNode) : option bool :=
  isHidden <$> query sel tree.

Definition rendered (sel : VNode -> bool) (tree : VNode) : bool :=
  match query sel tree with Some _ => true | None => false end.

(** ** Composition renderer *)

(** Truthiness of a possibly-undefined string. *)
Definition truthy (s : option string) : bool :=
  match s with
  | Some (String _ _) => true
  | Some EmptyString => false
  | None => false
  end.

(** Truthiness of a node-or-[null]. *)
Definition isNode (n : option VNode) : bool :=
  match n with Some _ => true | None => false end.

Definition slot (n : SLOTS.Name) (f : Handler) : option VNode :=
  Some (h "slot" [Name n; OnSlotchange f] []).

Definition renderHeaderContent (p : Panel) : option VNode :=
  let headingNode :=
    if truthy (heading p)
    then Some (h "Heading" [Class CSS.heading] [Text <$> heading p])
    else None in
  let descriptionNode :=
    if truthy (description p)
    then Some (h "span" [Class CSS.description] [Text <$> description p])
    else None in
  if negb (hasHeaderContent p) && (isNode headingNode || isNode descriptionNode)
  then Some (h "div" [Class CSS.headerContent; Key "header-content"]
               [headingNode; descriptionNode])
  else None.

Definition renderActionBar (p : Panel) : VNode :=
  h "div" [Class CSS.actionBarContainer; Hidden (negb (hasActionBar p))]
    [slot SLOTS.actionBar H_handleActionBarSlotChange].

Definition renderHeaderSlottedContent (p : Panel) : VNode :=
  h "div" [Class CSS.headerContent; Hidden (negb (hasHeaderContent p));
           Key "slotted-header-content"]
    [slot SLOTS.headerContent H_handleHeaderContentSlotChange].

Definition renderHeaderStartActions (p : Panel) : VNode :=
  h "div" [Class CSS.headerActionsStart; Class CSS.headerActions;
           Hidden (negb (hasStartActions p)); Key "header-actions-start"]
    [slot SLOTS.headerActionsStart H_handleHeaderActionsStartSlotChange].

Definition renderMenu (p : Panel) : VNode :=
  h "calcite-action-menu" [Hidden (negb (hasMenuItems p)); Key "menu"]
    [Some (h "calcite-action" [SlotAttr SLOTS.actionMenuTrigger] []);
     slot SLOTS.headerMenuActions H_handleHeaderMenuActionsSlotChange].

Definition renderHeaderActionsEnd (p : Panel) : VNode :=
  let collapseNode :=
    if collapsible p
    then Some (h "calcite-action" [Id IDS.collapse; OnClick H_collapse] [])
    else None in
  let closeNode :=
    if closable p
    then Some (h "calcite-action"
                 [Id IDS.close; OnClick H_handleUserClose] [])
    else None in
  let slotNode :=
    slot SLOTS.headerActionsEnd H_handleHeaderActionsEndSlotChange in
  let showContainer :=
    hasEndActions p || isNode collapseNode || isNode closeNode
    || hasMenuItems p in
  h "div" [Class CSS.headerActionsEnd; Class CSS.headerActions;
           Hidden (negb showContainer); Key "header-actions-end"]
    [slotNode; Some (renderMenu p); collapseNode; closeNode].

Definition renderContentTop (p : Panel) : VNode :=
  h "div" [Class CSS.contentTop; Hidden (negb (hasContentTop p))]
    [slot SLOTS.contentTop H_contentTopSlotChangeHandler].

(** [renderHeaderNode] also stores the flag it computes in the
    [showHeaderContent] state member, so it returns the component too. *)
Definition renderHeaderNode (p : Panel) : Panel * VNode :=
  let headerContentNode := renderHeaderContent p in
  let showHeaderContent' :=
    hasHeaderContent p || isNode headerContentNode || hasStartActions p
    || hasEndActions p || collapsible p || closable p || hasMenuItems p in
  let p' := set_showHeaderContent showHeaderContent' p in
  (p',
   h "header" [Class CSS.header;
               Hidden (negb (showHeaderContent' || hasActionBar p))]
     [Some (h "div" (Class CSS.headerContainer
                     :: classWhen (hasActionBar p')
                          CSS.headerContainerBorderEnd
                     ++ [Hidden (negb showHeaderContent')])
              [Some (renderHeaderStartActions p');
               Some (renderHeaderSlottedContent p');
               headerContentNode;
               Some (renderHeaderActionsEnd p')]);
      Some (renderActionBar p');
      Some (renderContentTop p')]).

Definition renderFooterNode (p : Panel) : VNode :=
  let showFooter :=
    hasFooterStartContent p || hasFooterEndContent p || hasFooterContent p
    || hasFooterActions p in
  h "footer" [Class CSS.footer; Hidden (negb showFooter)]
    [Some (h "div" [Class CSS.footerContent;
                    Hidden (negb (hasFooterContent p))]
             [slot SLOTS.footer H_handleFooterSlotChange]);
     Some (h "div" [Class CSS.footerStart;
                    Hidden (hasFooterContent p
                            || negb (hasFooterStartContent p))]
             [slot SLOTS.footerStart H_handleFooterStartSlotChange]);
     Some (h "div" [Class CSS.footerEnd;
                    Hidden (hasFooterContent p
                            || negb (hasFooterEndContent p))]
             [slot SLOTS.footerEnd H_handleFooterEndSlotChange]);
     Some (h "div" [Class CSS.footerActions;
                    Hidden (hasFooterContent p
                            || negb (hasFooterActions p))]
             [Some (h "slot" [Key "footer-actions-slot";
                              Name SLOTS.footerActions;
                              OnSlotchange H_handleFooterActionsSlotChange]
                      [])])].

Definition renderFab (p : Panel) : VNode :=
  h "div" [Class CSS.fabContainer; Hidden (negb (hasFab p))]
    [slot SLOTS.fab H_handleFabSlotChange].

Definition renderContent (p : Panel) : VNode :=
  h "div" [Class CSS.contentWrapper;
           Hidden (collapsible p && collapsed p);
           OnScroll H_panelScrollHandler]
    [Some (h "slot" [] []); Some (renderFab p)].

Definition renderContentBottom (p : Panel) : VNode :=
  h "div" [Class CSS.contentBottom; Hidden (negb (hasContentBottom p))]
    [slot SLOTS.contentBottom H_contentBottomSlotChangeHandler].

Definition render (p : Panel) : Panel * VNode :=
  let '(p', headerNode) := renderHeaderNode p in
  let panelNode :=
    h "article" [Class CSS.container; Hidden (isClosed p')]
      [Some headerNode;
       Some (renderContent p');
       Some (renderContentBottom p');
       Some (renderFooterNode p');
       Some (h "slot" [Key "alerts"; Name SLOTS.alerts;
                       OnSlotchange H_handleAlertsSlotChange] [])] in
  (p',
   h "Host" [OnKeyDown H_panelKeyDownHandler]
     [Some (h "InteractiveContainer" [Disabled (disabled p')]
              [if loading p'
               then Some (h "calcite-scrim" [Loading (loading p')] [])
               else None;
               Some panelNode])]).

(** The tree a render pass produces. *)
Definition view (p : Panel) : VNode := snd (render p).

(** ** Close/open sequencer *)

Inductive PanelEvent : Type :=
| calcitePanelClose
| calcitePanelToggle
| calcitePanelScroll.

(** The callback [close] hands to [requestAnimationFrame]:
    [() => { this.closed = false; }]. *)
Inductive FrameCallback : Type := RevertClosed.

(** What the component does to its surroundings, in the order it does it. *)
Inductive Effect : Type :=
| Called_beforeClose
| Emitted (e : PanelEvent)
| RequestedFrame.

#[global] Instance PanelEvent_eq_dec : EqDecision PanelEvent.
Proof. solve_decision. Defined.

#[global] Instance Effect_eq_dec : EqDecision Effect.
Proof. solve_decision. Defined.

(** The component in its surroundings: the light DOM, the [close] calls
    parked at their [await] together with the promise each one waits for,
    the pending animation-frame callbacks, and the effects so far. *)
Record World : Type := mkWorld {
  panel : Panel;
  document : Document;
  awaiting : list Promise;
  frames : list FrameCallback;
  trace : list Effect
}.

Definition with_panel (f : Panel -> Panel) (w : World) : World :=
  {| panel := f (panel w); document := document w;
     awaiting := awaiting w; frames := frames w; trace := trace w |}.

Definition with_document (d : Document) (w : World) : World :=
  {| panel := panel w; document := d;
     awaiting := awaiting w; frames := frames w; trace := trace w |}.

Definition with_awaiting (l : list Promise) (w : World) : World :=
  {| panel := panel w; document := document w;
     awaiting := l; frames := frames w; trace := trace w |}.

Definition with_frames (l : list FrameCallback) (w : World) : World :=
  {| panel := panel w; document := document w;
     awaiting := awaiting w; frames := l; trace := trace w |}.

Definition log (e : Effect) (w : World) : World :=
  {| panel := panel w; document := document w;
     awaiting := awaiting w; frames := frames w;
     trace := trace w ++ [e] |}.

Definition emit (e : PanelEvent) (w : World) : World := log (Emitted e) w.

Definition requestAnimationFrame (cb : FrameCallback) (w : World) : World :=
  log RequestedFrame (with_frames (frames w ++ [cb]) w).

(** How an async function's body ends. *)
Inductive Completion : Type :=
| Normal
| Abrupt (reason : string).

(** How [try { await beforeClose(); }] ends. *)
Inductive Outcome : Type :=
| Passed
| Raised (_error : string).

Definition open (w : World) : World := with_panel (set_isClosed false) w.

(** [this.beforeClose ?? (() => Promise.resolve())] *)
Definition beforeCloseOrDefault (p : Panel) : Guard :=
  default (fun _ => Returns Fulfils) (beforeClose p).

(** The part of [close] that follows the [try] statement's protected
    block: the [catch] clause when it raised, the last statement when it
    passed. Either way the function returns normally. *)
Definition close_continue (o : Outcome) (w : World) : World * Completion :=
  match o with
  | Raised _error =>
      (* close prevented *)
      (requestAnimationFrame RevertClosed w, Normal)
  | Passed => (with_panel (set_isClosed true) w, Normal)
  end.

(** [close] up to its [await]: the guard is called at once; a guard that
    throws lands in the [catch] clause without suspending, a returned
    promise parks the call. *)
Definition close (w : World) : World :=
  let beforeClose' := beforeCloseOrDefault (panel w) in
  let w1 := log Called_beforeClose w in
  match beforeClose' tt with
  | Throws reason => fst (close_continue (Raised reason) w1)
  | Returns pr => with_awaiting (awaiting w1 ++ [pr]) w1
  end.

(** The promise the [i]-th parked [close] waits for settles and the call
    resumes; a promise that never settles never resumes it. The second
    component is how the resumed call ends, when it does. *)
Definition settle (i : nat) (w : World) : World * option Completion :=
  match awaiting w !! i with
  | Some Fulfils =>
      let (w', c) :=
        close_continue Passed (with_awaiting (delete i (awaiting w)) w) in
      (w', Some c)
  | Some (Rejects reason) =>
      let (w', c) :=
        close_continue (Raised reason)
          (with_awaiting (delete i (awaiting w)) w) in
      (w', Some c)
  | Some Pends | None => (w, None)
  end.

(** The [@Watch("closed")] method. *)
Definition toggleDialog (value : bool) (w : World) : World :=
  if value then close w else open w.

(** A write to the watched [closed] property: the watcher runs, within
    the write, when the value changes. *)
Definition write_closed (value : bool) (w : World) : World :=
  if Bool.eqb (closed (panel w)) value then w
  else toggleDialog value (with_panel (set_closed value) w).

Definition handleUserClose (w : World) : World :=
  emit calcitePanelClose (write_closed true w).

Definition panelKeyDownHandler (event : KeyboardEvent) (w : World)
  : World * KeyboardEvent :=
  if closable (panel w) && String.eqb (key event) "Escape"
     && negb (defaultPrevented event)
  then (handleUserClose w, preventDefault event)
  else (w, event).

Definition collapse (w : World) : World :=
  emit calcitePanelToggle
    (with_panel (fun p => set_collapsed (negb (collapsed p)) p) w).

Definition panelScrollHandler (w : World) : World :=
  emit calcitePanelScroll w.

Definition runFrameCallback (cb : FrameCallback) (w : World) : World :=
  match cb with
  | RevertClosed => write_closed false w
  end.

(** An animation frame: the callbacks requested so far run in order. *)
Definition animationFrame (w : World) : World :=
  foldl (fun w' cb => runFrameCallback cb w') (with_frames [] w) (frames w).

(** ** Event dispatch *)

(** Calling a listener the render tree installed with [onClick]. *)
Definition invokeClick (f : Handler) (w : World) : World :=
  match f with
  | H_collapse => collapse w
  | H_handleUserClose => handleUserClose w
  | _ => w
  end.

(** A click on the action with the given id: its [onClick] listener runs
    if the last render produced the action. The click is taken as
    delivered; withholding it from a disabled panel is the business of
    [utils/interactive]. *)
Definition click (i : IDS.Id) (w : World) : World :=
  match query (hasId i) (view (panel w)) with
  | Some node =>
      match onClickOf node with
      | Some f => invokeClick f w
      | None => w
      end
  | None => w
  end.

(** Calling a listener the render tree installed with [onSlotchange]. *)
Definition invokeSlotchange (f : Handler) (event : SlotChangeEvent)
  (w : World) : World :=
  match f with
  | H_handleHeaderActionsStartSlotChange =>
      with_panel (handleHeaderActionsStartSlotChange event) w
  | H_handleHeaderActionsEndSlotChange =>
      with_panel (handleHeaderActionsEndSlotChange event) w
  | H_handleHeaderMenuActionsSlotChange =>
      with_panel (handleHeaderMenuActionsSlotChange event) w
  | H_handleActionBarSlotChange =>
      let (p, d) := handleActionBarSlotChange event (panel w) (document w) in
      with_document d (with_panel (fun _ => p) w)
  | H_handleHeaderContentSlotChange =>
      with_panel (handleHeaderContentSlotChange event) w
  | H_handleFabSlotChange => with_panel (handleFabSlotChange event) w
  | H_handleFooterActionsSlotChange =>
      with_panel (handleFooterActionsSlotChange event) w
  | H_handleFooterEndSlotChange =>
      with_panel (handleFooterEndSlotChange event) w
  | H_handleFooterStartSlotChange =>
      with_panel (handleFooterStartSlotChange event) w
  | H_handleFooterSlotChange =>
      with_panel (handleFooterSlotChange event) w
  | H_contentBottomSlotChangeHandler =>
      with_panel (contentBottomSlotChangeHandler event) w
  | H_contentTopSlotChangeHandler =>
      with_panel (contentTopSlotChangeHandler event) w
  | H_handleAlertsSlotChange =>
      with_document (handleAlertsSlotChange event (document w)) w
  | H_collapse | H_handleUserClose | H_panelKeyDownHandler
  | H_panelScrollHandler => w
  end.

(** What can happen to a loaded component. *)
Inductive Action : Type :=
| SetClosed (value : bool)
| Click (i : IDS.Id)
| KeyDown (event : KeyboardEvent)
| Settle (i : nat)
| AnimationFrame
| Slotchange (f : Handler) (event : SlotChangeEvent)
| Resize
| Scroll
| Render.

Definition step (a : Action) (w : World) : World :=
  match a with
  | SetClosed value => write_closed value w
  | Click i => click i w
  | KeyDown event => fst (panelKeyDownHandler event w)
  | Settle i => fst (settle i w)
  | AnimationFrame => animationFrame w
  | Slotchange f event => invokeSlotchange f event w
  | Resize => with_panel resizeHandler w
  | Scroll => panelScrollHandler w
  | Render => with_panel (fun p => fst (render p)) w
  end.

Definition run (acts : list Action) (w : World) : World :=
  foldl (fun w' a => step a w') w acts.

(** A loaded component with nothing slotted and nothing pending. *)
Definition loaded (p : Panel) : World :=
  {| panel := p; document := ∅; awaiting := []; frames := [];
     trace := [] |}.

(** ** Reading the render tree *)

Definition hasName (n : SLOTS.Name) (v : VNode) : bool :=
  existsb (fun a => match a with
                    | Name n' => bool_decide (n = n')
                    | _ => false
                    end) (attrsOf v).

Definition onSlotchangeOf (v : VNode) : option Handler :=
  head (omap (fun a => match a with OnSlotchange f => Some f | _ => None end)
             (attrsOf v)).

(** The listener the tree installs on the slot named [n]. *)
Definition slotListener (n : SLOTS.Name) (tree : VNode) : option Handler :=
  query (hasName n) tree ≫= onSlotchangeOf.

(** The presence flag that belongs to a named region: the flag that guards
    the [hidden] attribute of the region's container. The [alerts] slot and
    the action menu's trigger have none. *)
Definition presenceFlag (n : SLOTS.Name) : option (Panel -> bool) :=
  match n with
  | SLOTS.actionBar => Some hasActionBar
  | SLOTS.alerts => None
  | SLOTS.contentBottom => Some hasContentBottom
  | SLOTS.contentTop => Some hasContentTop
  | SLOTS.fab => Some hasFab
  | SLOTS.footer => Some hasFooterContent
  | SLOTS.footerActions => Some hasFooterActions
  | SLOTS.footerEnd => Some hasFooterEndContent
  | SLOTS.footerStart => Some hasFooterStartContent
  | SLOTS.headerActionsEnd => Some hasEndActions
  | SLOTS.headerActionsStart => Some hasStartActions
  | SLOTS.headerContent => Some hasHeaderContent
  | SLOTS.headerMenuActions => Some hasMenuItems
  | SLOTS.actionMenuTrigger => None
  end.

(** A [slotchange] event whose slot holds the given references. *)
Definition slotchangeWith (refs : list NodeRef) : SlotChangeEvent :=
  {| target := {| assignedElements := refs |} |}.

(** The header criterion as the specification lists it (sections 3
    and 8): slotted header content, start or end actions, collapsible,
    closable, menu items. *)
Definition listedHeaderCriterion (p : Panel) : bool :=
  hasHeaderContent p || hasStartActions p || hasEndActions p
  || collapsible p || closable p || hasMenuItems p.

(** A user-initiated close as the handlers accept it: a click on the close
    action, or an Escape key press that nothing has default-prevented, on
    a closable panel. *)
Definition userClose (a : Action) (w : World) : Prop :=
  closable (panel w) = true
  ∧ (a = Click IDS.close
     ∨ ∃ event, a = KeyDown event ∧ key event = "Escape"
                ∧ defaultPrevented event = false).

(** The order the specification gives for a user-initiated close: within
    the effects of the action, the close notification comes before any
    call of the guard. *)
Definition notifiedBeforeGuard (effects : list Effect) : Prop :=
  ∀ i j : nat,
    effects !! i = Some Called_beforeClose →
    effects !! j = Some (Emitted calcitePanelClose) →
    (j < i)%nat.

(** The listener each named slot gets, whatever the component's state. *)
Definition listenerOf (n : SLOTS.Name) : option Handler :=
  match n with
  | SLOTS.actionBar => Some H_handleActionBarSlotChange
  | SLOTS.alerts => Some H_handleAlertsSlotChange
  | SLOTS.contentBottom => Some H_contentBottomSlotChangeHandler
  | SLOTS.contentTop => Some H_contentTopSlotChangeHandler
  | SLOTS.fab => Some H_handleFabSlotChange
  | SLOTS.footer => Some H_handleFooterSlotChange
  | SLOTS.footerActions => Some H_handleFooterActionsSlotChange
  | SLOTS.footerEnd => Some H_handleFooterEndSlotChange
  | SLOTS.footerStart => Some H_handleFooterStartSlotChange
  | SLOTS.headerActionsEnd => Some H_handleHeaderActionsEndSlotChange
  | SLOTS.headerActionsStart => Some H_handleHeaderActionsStartSlotChange
  | SLOTS.headerContent => Some H_handleHeaderContentSlotChange
  | SLOTS.headerMenuActions => Some H_handleHeaderMenuActionsSlotChange
  | SLOTS.actionMenuTrigger => None
  end.

(** The guard's immediate effects: its call, and the frame request of
    the [catch] clause when it throws instead of returning. *)
Definition guardEffects (p : Panel) : list Effect :=
  Called_beforeClose ::
    match beforeCloseOrDefault p () with
    | Throws _ => [RequestedFrame]
    | Returns _ => []
    end.

(** ** Concrete components *)

(** A plain [div], and a document that holds just it. *)
Definition plainDiv : Element := mkElement "div" None None.

Definition oneDiv : Document := {[ 0%nat := plainDiv ]}.

(** A content wrapper with the given scroll height and visible height. *)
Definition scrollEl (sh oh : Z) : ScrollEl :=
  {| scrollHeight := JNumber sh; offsetHeight := JNumber oh;
     attributes := {[ "class" := "content-wrapper" ]} |}.

(** A panel whose only content-related setting is its heading. *)
Definition titled : Panel := set_heading (Some "Layers") initial.

(** A panel whose guard vetoes every close, and one whose guard lets
    every close through. *)
Definition vetoing : Panel :=
  set_beforeClose (Some (λ _, Returns (Rejects "unsaved changes")))
    (set_closable true initial).

Definition consenting : Panel :=
  set_beforeClose (Some (λ _, Returns Fulfils)) (set_closable true initial).

(** The world of a loaded panel with a vetoing guard, at rest. *)
Definition vetoingAtRest : World := loaded vetoing.

(** A default-prevented Escape key press. *)
Definition preventedEscape : KeyboardEvent :=
  {| key := "Escape"; defaultPrevented := true |}.

(** The world with the plain [div] in its document. *)
Definition divWorld : World := with_document oneDiv (loaded initial).


(** ** Further readings of the render tree *)

Definition hasTag (t : string) (v : VNode) : bool :=
  match v with
  | Elem t' _ _ => String.eqb t t'
  | Text _ => false
  end.

(** Every node of the tree, in document order, with whether it is
    displayed: neither it nor any node above it carries [hidden]. *)
Fixpoint shownNodes (hiddenAbove : bool) (v : VNode)
  : list (VNode * bool) :=
  let shown := negb hiddenAbove && negb (isHidden v) in
  match v with
  | Elem _ _ children =>
      (v, shown) :: flat_map (shownNodes (negb shown)) children
  | Text _ => [(v, shown)]
  end.

(** Whether the first node that satisfies [sel] is displayed; [None] when
    the tree has no such node. *)
Definition displayed (sel : VNode → bool) (tree : VNode) : option bool :=
  snd <$> List.find (λ x, sel (fst x)) (shownNodes false tree).

(** Induction on render trees, with the hypothesis for every child. *)
Fixpoint VNode_forall_ind (P : VNode → Prop)
  (HElem : ∀ tag attrs children,
      Forall P children → P (Elem tag attrs children))
  (HText : ∀ s, P (Text s)) (v : VNode) : P v :=
  match v with
  | Elem tag attrs children =>
      HElem tag attrs children
        ((fix all (cs : list VNode) : Forall P cs :=
            match cs with
            | [] => List.Forall_nil P
            | c :: cs' =>
                @List.Forall_cons _ P c cs'
                  (VNode_forall_ind P HElem HText c) (all cs')
            end) children)
  | Text s => HText s
  end.

(** The nodes that lie outside the panel's [article]. *)
Definition outsideArticle (v : VNode) : bool :=
  hasTag "Host" v || hasTag "InteractiveContainer" v
  || hasTag "calcite-scrim" v.

(** The listeners that only write a presence flag of the component. *)
Definition writesPresenceFlag (f : Handler) : bool :=
  match f with
  | H_handleHeaderActionsStartSlotChange
  | H_handleHeaderActionsEndSlotChange
  | H_handleHeaderMenuActionsSlotChange
  | H_handleHeaderContentSlotChange
  | H_handleFabSlotChange
  | H_handleFooterActionsSlotChange
  | H_handleFooterEndSlotChange
  | H_handleFooterStartSlotChange
  | H_handleFooterSlotChange
  | H_contentBottomSlotChangeHandler
  | H_contentTopSlotChangeHandler => true
  | _ => false
  end.

(** ** The alerts listener, turn by turn *)

(** One turn of the loop of [handleAlertsSlotChange]. *)
Definition embedAlert (doc : Document) (r : NodeRef) : Document :=
  match doc !! r with
  | Some el =>
      if String.eqb (nodeName el) "CALCITE-ALERT"
      then <[r := set_embedded true el]> doc
      else doc
  | None => doc
  end.

(** Whether a reference resolves to a [calcite-alert], by node name. *)
Definition isAlert (doc : Document) (r : NodeRef) : bool :=
  bool_decide (nodeName <$> doc !! r = Some "CALCITE-ALERT").

(** ** The collapse action's icon *)

(** The [collapseDirection] property. *)
Inductive CollapseDirection : Type := down | up.

(** The keys of the [ICONS] table of [./resources] that the collapse
    action uses. *)
Module ICONS.
Inductive Key : Type := expand | collapse.
End ICONS.

(** The [icon] attribute [renderHeaderActionsEnd] gives the collapse
    action: [icons[0]] when collapsed and [icons[1]] otherwise, where
    [icons] is [[ICONS.expand, ICONS.collapse]], reversed when the
    direction is ["up"]. An index outside the array reads as
    [undefined]. *)
Definition collapseIcon (collapseDirection : CollapseDirection)
  (collapsed' : bool) : option ICONS.Key :=
  let icons := [ICONS.expand; ICONS.collapse] in
  let icons :=
    match collapseDirection with
    | up => reverse icons
    | down => icons
    end in
  if collapsed' then icons !! 0%nat else icons !! 1%nat.

(** ** The scroll element's reference and its observer *)

(** A [ResizeObserver], by the elements it observes. *)
Record ResizeObserver : Type := mkResizeObserver {
  observed : list ScrollEl
}.

Definition disconnect (o : ResizeObserver) : ResizeObserver :=
  {| observed := [] |}.

Definition observe (el : ScrollEl) (o : ResizeObserver) : ResizeObserver :=
  {| observed := observed o ++ [el] |}.

(** The component together with its [resizeObserver] member, which is
    [undefined] where the platform has no observers. *)
Record Mounted : Type := mkMounted {
  host : Panel;
  resizeObserver : option ResizeObserver
}.

(** The [ref] callback of the content wrapper. *)
Definition setPanelScrollEl (el : option ScrollEl) (m : Mounted) : Mounted :=
  let p := set_panelScrollEl el (host m) in
  let o := disconnect <$> resizeObserver m in
  match el with
  | Some el' => {| host := resizeHandler p; resizeObserver := observe el' <$> o |}
  | None => {| host := p; resizeObserver := o |}
  end.

(** The part of [disconnectedCallback] that concerns the observer. *)
Definition disconnectedCallback (m : Mounted) : Mounted :=
  {| host := host m; resizeObserver := disconnect <$> resizeObserver m |}.
(** * Properties *)

(** ** Slot presence tracker *)

Section SlotPresence.

Implicit Types (p : Panel) (doc : Document) (event : SlotChangeEvent).

Lemma hasAssignedElement_length event :
  slotChangeHasAssignedElement event
  = bool_decide (0 < length (assignedElements (target event)))%nat.
Proof.
  unfold slotChangeHasAssignedElement, slotChangeGetAssignedElements.
  destruct (assignedElements (target event)) as [|r refs].
  - symmetry. apply bool_decide_eq_false_2. simpl. lia.
  - symmetry. apply bool_decide_eq_true_2. simpl. lia.
Qed.

(** Setting the layout twice is setting it once. *)
Lemma set_layout_idemp v (el : Element) :
  set_layout v (set_layout v el) = set_layout v el.
Proof. reflexivity. Qed.

(** What [forEach] leaves in the store: exactly the referenced objects
    are updated. *)
Lemma forEach_setLayout_lookup (refs : list NodeRef) doc (r : NodeRef) :
  forEach_setLayout refs doc !! r
  = if bool_decide (r ∈ refs)
    then set_layout "horizontal" <$> doc !! r
    else doc !! r.
Proof.
  unfold forEach_setLayout.
  revert doc. induction refs as [|r0 refs IH]; intros doc; cbn [foldl].
  - rewrite bool_decide_eq_false_2; [done | apply not_elem_of_nil].
  - rewrite IH, lookup_alter.
    destruct (decide (r0 = r)) as [->|Hne].
    + rewrite (bool_decide_eq_true_2 (r ∈ r :: refs))
        by apply list_elem_of_here.
      case_bool_decide; [|done].
      destruct (doc !! r); simpl; [|done].
      by rewrite set_layout_idemp.
    + case_bool_decide as Hin.
      * rewrite bool_decide_eq_true_2; [done|].
        by apply list_elem_of_further.
      * rewrite bool_decide_eq_false_2; [done|].
        rewrite elem_of_cons. intros [?|?]; congruence.
Qed.

Lemma length_filter_existsb {A} (f : A → bool) (l : list A) :
  negb (Nat.eqb (length (List.filter f l)) 0) = existsb f l.
Proof.
  induction l as [|x l IH]; simpl; [done|].
  destruct (f x); simpl; [done | exact IH].
Qed.

Lemma existsb_pointwise {A} (f g : A → bool) (l : list A) :
  (∀ x, f x = g x) → existsb f l = existsb g l.
Proof.
  intros Hfg. induction l as [|x l IH]; simpl; [done|].
  by rewrite Hfg, IH.
Qed.

Lemma elem_of_List_filter {A} (f : A → bool) (l : list A) (x : A) :
  x ∈ List.filter f l ↔ x ∈ l ∧ f x = true.
Proof. rewrite !list_elem_of_In. apply filter_In. Qed.

End SlotPresence.

(** C8. On an action-bar slot change the presence flag is true exactly
    when some assigned element is a [calcite-action-bar]; every assigned
    [calcite-action-bar] has its [layout] set to ["horizontal"] and keeps
    its other members; every other element of the document, assigned or
    not, is left as it was, and nothing but the flag changes on the
    component. *)
Theorem action_bar_slotchange_filters
  (event : SlotChangeEvent) (p : Panel) (doc : Document) :
  let p' := fst (handleActionBarSlotChange event p doc) in
  let doc' := snd (handleActionBarSlotChange event p doc) in
  hasActionBar p'
  = existsb (fun r => bool_decide
               (localName <$> doc !! r = Some "calcite-action-bar"))
            (assignedElements (target event))
  ∧ p' = set_hasActionBar (hasActionBar p') p
  ∧ ∀ r : NodeRef,
      doc' !! r
      = if bool_decide (r ∈ assignedElements (target event))
           && bool_decide
                (localName <$> doc !! r = Some "calcite-action-bar")
        then set_layout "horizontal" <$> doc !! r
        else doc !! r.
Proof.
  assert (Hbar : ∀ r, isActionBar doc r
             = bool_decide
                 (localName <$> doc !! r = Some "calcite-action-bar")).
  { intros r. unfold isActionBar, matches.
    destruct (doc !! r) as [el|].
    - destruct (String.eqb_spec (localName el) "calcite-action-bar")
        as [Heq|Hne]; symmetry.
      + apply bool_decide_eq_true_2. simpl. by rewrite Heq.
      + apply bool_decide_eq_false_2. simpl. congruence.
    - symmetry. by apply bool_decide_eq_false_2. }
  simpl. unfold slotChangeGetAssignedElements.
  split; [|split; [done|]].
  - rewrite length_filter_existsb. apply existsb_pointwise, Hbar.
  - intros r. rewrite forEach_setLayout_lookup, <- Hbar.
    destruct (isActionBar doc r) eqn:Hr.
    + rewrite andb_true_r.
      rewrite (bool_decide_ext _ (r ∈ assignedElements (target event)));
        [done|].
      rewrite elem_of_List_filter. tauto.
    + rewrite andb_false_r, bool_decide_eq_false_2; [done|].
      rewrite elem_of_List_filter. rewrite Hr. intros [_ ?]; discriminate.
Qed.

(** ** Reading a symbolic render tree *)

(** The members that decide which nodes the tree has; once they are
    fixed the tree has a fixed shape and queries on it compute. The
    component is taken apart into its members, which keep their names
    with a [0] appended. *)
Ltac fix_shape p :=
  destruct p as [beforeClose0 closed0 disabled0 closable0 collapsed0
                 collapsible0 loading0 heading0 description0 panelScrollEl0
                 isClosed0 hasStartActions0 hasEndActions0 hasMenuItems0
                 hasHeaderContent0 hasActionBar0 hasContentBottom0
                 hasContentTop0 hasFab0 hasFooterActions0 hasFooterContent0
                 hasFooterEndContent0 hasFooterStartContent0
                 showHeaderContent0];
  destruct heading0 as [[|? ?]|]; destruct description0 as [[|? ?]|];
  destruct loading0, collapsible0, closable0, hasHeaderContent0,
    hasActionBar0.

Ltac by_rendering p := fix_shape p; vm_compute; reflexivity.

Section Wiring.

Lemma slotListener_view (p : Panel) (n : SLOTS.Name) :
  slotListener n (view p) = listenerOf n.
Proof. destruct n; by_rendering p. Qed.

End Wiring.

(** C5, as stated, fails for the action-bar region: with a [div] assigned
    to the action-bar slot, the slot has an assigned element, its listener
    is [handleActionBarSlotChange], and after the listener has run
    [hasActionBar] is still false. *)
Lemma action_bar_flag_ignores_other_elements :
  slotListener SLOTS.actionBar (view (panel divWorld))
  = Some H_handleActionBarSlotChange
  ∧ presenceFlag SLOTS.actionBar = Some hasActionBar
  ∧ bool_decide
      (0 < length (assignedElements (target (slotchangeWith [0%nat]))))%nat
    = true
  ∧ hasActionBar
      (panel (step (Slotchange H_handleActionBarSlotChange
                      (slotchangeWith [0%nat])) divWorld))
    = false.
Proof. vm_compute. auto. Qed.

(** C5, amended. For every named region other than the action bar: after
    the listener the render tree installs on the region's slot has run,
    the region's presence flag equals whether the slot has at least one
    assigned element. This is re-established on every slot-change event:
    assigning an element and then removing it makes the flag true and
    then false. *)
Theorem presence_flag_tracks_slot
  (w : World) (n : SLOTS.Name) (f : Handler) (flag : Panel → bool)
  (event : SlotChangeEvent) :
  n ≠ SLOTS.actionBar →
  slotListener n (view (panel w)) = Some f →
  presenceFlag n = Some flag →
  flag (panel (step (Slotchange f event) w))
  = bool_decide (0 < length (assignedElements (target event)))%nat
  ∧ ∀ r : NodeRef,
      flag (panel (run [Slotchange f (slotchangeWith [r])] w)) = true
      ∧ flag (panel (run [Slotchange f (slotchangeWith [r]);
                          Slotchange f (slotchangeWith [])] w)) = false.
Proof.
  intros Hn Hf Hflag. rewrite slotListener_view in Hf.
  rewrite <- hasAssignedElement_length.
  destruct n; try done; simpl in Hf, Hflag;
    injection Hf as <-; injection Hflag as <-; split; reflexivity || done.
Qed.

Lemma presence_flag_tracks_slot_witness :
  hasFab (panel (step (Slotchange H_handleFabSlotChange (slotchangeWith [7%nat]))
                      (loaded initial))) = true.
Proof.
  pose proof (presence_flag_tracks_slot (loaded initial) SLOTS.fab
                H_handleFabSlotChange hasFab (slotchangeWith [7%nat])) as H.
  destruct H as [H _]; [discriminate | reflexivity | reflexivity |].
  exact H.
Defined.

(** ** Scroll affordance monitor *)

(** C6. With a scroll element whose two measurements are numbers, the
    resize handler leaves [tabindex] at ["0"] when the scroll height is
    strictly greater than the visible height and leaves no [tabindex]
    otherwise, touching no other attribute and nothing else on the
    component; without a scroll element, or with a measurement that is
    not a number, it changes nothing. *)
Theorem resize_sets_tabindex (p : Panel) :
  (∀ (el : ScrollEl) (sh oh : Z),
      panelScrollEl p = Some el →
      scrollHeight el = JNumber sh →
      offsetHeight el = JNumber oh →
      ∃ el', panelScrollEl (resizeHandler p) = Some el'
             ∧ resizeHandler p = set_panelScrollEl (Some el') p
             ∧ ((sh > oh)%Z → getAttribute "tabindex" el' = Some "0")
             ∧ ((sh ≤ oh)%Z → getAttribute "tabindex" el' = None)
             ∧ (∀ k, k ≠ "tabindex" →
                     getAttribute k el' = getAttribute k el)
             ∧ scrollHeight el' = scrollHeight el
             ∧ offsetHeight el' = offsetHeight el)
  ∧ (panelScrollEl p = None → resizeHandler p = p)
  ∧ (∀ el : ScrollEl,
        panelScrollEl p = Some el →
        typeof_number (scrollHeight el) = false
        ∨ typeof_number (offsetHeight el) = false →
        resizeHandler p = p).
Proof.
  unfold resizeHandler. split; [|split].
  - intros el sh oh Hel Hsh Hoh. rewrite Hel, Hsh, Hoh.
    destruct (Z.gtb_spec sh oh) as [Hgt|Hle].
    + eexists. split; [reflexivity|]. split; [reflexivity|].
      unfold getAttribute, setAttribute; simpl.
      refine (conj _ (conj _ (conj _ (conj Hsh Hoh)))).
      * intros _. apply lookup_insert_eq.
      * intros; lia.
      * intros k Hk. by apply lookup_insert_ne.
    + eexists. split; [reflexivity|]. split; [reflexivity|].
      unfold getAttribute, removeAttribute; simpl.
      refine (conj _ (conj _ (conj _ (conj Hsh Hoh)))).
      * intros; lia.
      * intros _. apply lookup_delete_eq.
      * intros k Hk. by apply lookup_delete_ne.
  - by intros ->.
  - intros el -> [H|H].
    + by destruct (scrollHeight el).
    + destruct (scrollHeight el); [|done]. by destruct (offsetHeight el).
Qed.

Lemma resize_sets_tabindex_witness :
  (panelScrollEl
     (resizeHandler (set_panelScrollEl (Some (scrollEl 500 300)) initial))
   ≫= getAttribute "tabindex") = Some "0"
  ∧ resizeHandler initial = initial.
Proof.
  split.
  - destruct (resize_sets_tabindex
                (set_panelScrollEl (Some (scrollEl 500 300)) initial))
      as [H _].
    destruct (H (scrollEl 500 300) 500 300 eq_refl eq_refl eq_refl)
      as (el' & -> & _ & Hgt & _).
    simpl. apply Hgt. lia.
  - destruct (resize_sets_tabindex initial) as (_ & H & _).
    apply H. reflexivity.
Defined.

(** ** Composition renderer *)

Section Composition.

Implicit Type p : Panel.

(** The property-derived header block exists exactly when nothing is
    slotted into the header and a heading or a description is set. *)
Lemma renderHeaderContent_isNode p :
  isNode (renderHeaderContent p)
  = negb (hasHeaderContent p)
    && (truthy (heading p) || truthy (description p)).
Proof.
  unfold renderHeaderContent.
  destruct (hasHeaderContent p), (truthy (heading p)),
    (truthy (description p)); reflexivity.
Qed.

(** The flag [renderHeaderNode] caches is the flag that hides the header
    container. *)
Lemma showHeaderContent_cached p :
  hiddenOf (hasClass CSS.headerContainer) (view p)
  = Some (negb (showHeaderContent (fst (render p)))).
Proof.
  fix_shape p; destruct hasStartActions0, hasEndActions0, hasMenuItems0;
    vm_compute; reflexivity.
Qed.

(** The enclosing [header] element is also kept visible by an action
    bar. *)
Lemma header_element_hidden p :
  hiddenOf (hasClass CSS.header) (view p)
  = Some (negb (listedHeaderCriterion p
                || truthy (heading p) || truthy (description p)
                || hasActionBar p)).
Proof.
  fix_shape p; destruct hasStartActions0, hasEndActions0, hasMenuItems0;
    vm_compute; reflexivity.
Qed.

End Composition.

(** C3, as stated, fails: with a heading and none of the six listed
    conditions, the header container is visible. *)
Lemma header_visible_by_heading_alone :
  listedHeaderCriterion titled = false
  ∧ hiddenOf (hasClass CSS.headerContainer) (view titled) = Some false.
Proof. split; reflexivity. Qed.

(** C3, amended. At every render the header container is visible if and
    only if at least one of the following holds: slotted header content is
    present, start actions are present, end actions are present, the panel
    is collapsible, the panel is closable, menu items are present, or the
    heading or the description is non-empty. *)
Theorem header_container_visibility (p : Panel) :
  hiddenOf (hasClass CSS.headerContainer) (view p)
  = Some (negb (listedHeaderCriterion p
                || truthy (heading p) || truthy (description p))).
Proof.
  fix_shape p; destruct hasStartActions0, hasEndActions0, hasMenuItems0;
    vm_compute; reflexivity.
Qed.

(** C4. At every render each of the footer-start, footer-end and
    footer-actions containers is hidden when the generic footer slot has
    content, whatever its own presence flag; when the generic footer slot
    is empty it is hidden exactly when its own presence flag is false. *)
Theorem footer_regions_yield_to_footer (p : Panel) :
  hiddenOf (hasClass CSS.footerStart) (view p)
  = Some (if hasFooterContent p then true
          else negb (hasFooterStartContent p))
  ∧ hiddenOf (hasClass CSS.footerEnd) (view p)
    = Some (if hasFooterContent p then true
            else negb (hasFooterEndContent p))
  ∧ hiddenOf (hasClass CSS.footerActions) (view p)
    = Some (if hasFooterContent p then true
            else negb (hasFooterActions p)).
Proof.
  fix_shape p;
    destruct hasFooterContent0, hasFooterStartContent0,
      hasFooterEndContent0, hasFooterActions0;
    vm_compute; auto.
Qed.

(** C9. At every render the content wrapper is hidden if and only if the
    panel is both collapsible and collapsed; a panel that is collapsed but
    not collapsible shows its content. *)
Theorem content_hidden_iff_collapsed (p : Panel) :
  hiddenOf (hasClass CSS.contentWrapper) (view p)
  = Some (collapsible p && collapsed p)
  ∧ hiddenOf (hasClass CSS.contentWrapper)
      (view (set_collapsed true (set_collapsible false p)))
    = Some false.
Proof.
  fix_shape p; destruct collapsed0; vm_compute; auto.
Qed.

(** C10. At every render the header block built from the heading and
    description properties is in the tree if and only if nothing is
    slotted into the header-content slot and the heading or the
    description is non-empty; slotted header content always leaves it
    out. *)
Theorem property_header_block_rendered (p : Panel) :
  rendered (hasKey "header-content") (view p)
  = negb (hasHeaderContent p)
    && (truthy (heading p) || truthy (description p))
  ∧ query (hasKey "header-content") (view p) = renderHeaderContent p
  ∧ rendered (hasKey "header-content")
      (view (set_hasHeaderContent true p)) = false.
Proof. fix_shape p; vm_compute; auto. Qed.

(** ** Close/open sequencer *)

Section Sequencer.

Implicit Types (w : World) (p : Panel).

(** *** Clicks reach the listeners of the rendered actions *)

Lemma query_close_action p :
  query (hasId IDS.close) (view p)
  = if closable p
    then Some (h "calcite-action"
                 [Id IDS.close; OnClick H_handleUserClose] [])
    else None.
Proof. by_rendering p. Qed.

Lemma query_collapse_action p :
  query (hasId IDS.collapse) (view p)
  = if collapsible p
    then Some (h "calcite-action"
                 [Id IDS.collapse; OnClick H_collapse] [])
    else None.
Proof. by_rendering p. Qed.

Lemma click_close w :
  closable (panel w) = true → click IDS.close w = handleUserClose w.
Proof.
  intros Hc. unfold click. by rewrite query_close_action, Hc.
Qed.

Lemma click_close_absent w :
  closable (panel w) = false → click IDS.close w = w.
Proof.
  intros Hc. unfold click. by rewrite query_close_action, Hc.
Qed.

Lemma click_collapse w :
  collapsible (panel w) = true → click IDS.collapse w = collapse w.
Proof.
  intros Hc. unfold click. by rewrite query_collapse_action, Hc.
Qed.

Lemma click_collapse_absent w :
  collapsible (panel w) = false → click IDS.collapse w = w.
Proof.
  intros Hc. unfold click. by rewrite query_collapse_action, Hc.
Qed.

(** *** The trace only grows *)

Lemma close_continue_trace o w :
  trace w `prefix_of` trace (fst (close_continue o w)).
Proof.
  destruct o; simpl; [reflexivity|]. by apply prefix_app_r.
Qed.

Lemma close_trace w : trace w `prefix_of` trace (close w).
Proof.
  unfold close. destruct (beforeCloseOrDefault (panel w) ()) as [r|pr].
  - etrans; [|apply close_continue_trace]. simpl. by apply prefix_app_r.
  - simpl. by apply prefix_app_r.
Qed.

Lemma write_closed_trace v w :
  trace w `prefix_of` trace (write_closed v w).
Proof.
  unfold write_closed, toggleDialog.
  destruct (eqb (closed (panel w)) v); [reflexivity|].
  destruct v; [|reflexivity].
  etrans; [|apply close_trace]. reflexivity.
Qed.

Lemma handleUserClose_trace w :
  trace w `prefix_of` trace (handleUserClose w).
Proof.
  unfold handleUserClose, emit. simpl.
  apply prefix_app_r, write_closed_trace.
Qed.

Lemma collapse_trace w : trace w `prefix_of` trace (collapse w).
Proof. unfold collapse, emit. simpl. by apply prefix_app_r. Qed.

Lemma settle_trace i w : trace w `prefix_of` trace (fst (settle i w)).
Proof.
  unfold settle. destruct (awaiting w !! i) as [[|r|]|]; simpl;
    try reflexivity.
  by apply prefix_app_r.
Qed.

Lemma animationFrame_trace w :
  trace w `prefix_of` trace (animationFrame w).
Proof.
  unfold animationFrame.
  assert (H : ∀ cbs w0,
             trace w0 `prefix_of`
             trace (foldl (λ w' cb, runFrameCallback cb w') w0 cbs)).
  { induction cbs as [|[] cbs IH]; intros w0; simpl; [reflexivity|].
    etrans; [|apply IH]. apply write_closed_trace. }
  etrans; [|apply H]. reflexivity.
Qed.

Lemma invokeSlotchange_trace f event w :
  trace (invokeSlotchange f event w) = trace w.
Proof.
  destruct f; reflexivity.
Qed.

Lemma step_trace a w : trace w `prefix_of` trace (step a w).
Proof.
  destruct a as [v|i|event|i| |f event| | |]; simpl.
  - apply write_closed_trace.
  - destruct i.
    + destruct (closable (panel w)) eqn:Hc.
      * rewrite click_close by done. apply handleUserClose_trace.
      * by rewrite click_close_absent.
    + destruct (collapsible (panel w)) eqn:Hc.
      * rewrite click_collapse by done. apply collapse_trace.
      * by rewrite click_collapse_absent.
  - unfold panelKeyDownHandler.
    destruct (_ && _); simpl; [apply handleUserClose_trace|reflexivity].
  - apply settle_trace.
  - apply animationFrame_trace.
  - by rewrite invokeSlotchange_trace.
  - reflexivity.
  - unfold panelScrollHandler, emit. simpl. by apply prefix_app_r.
  - reflexivity.
Qed.

Lemma run_trace acts w : trace w `prefix_of` trace (run acts w).
Proof.
  unfold run. revert w.
  induction acts as [|a acts IH]; intros w; simpl; [reflexivity|].
  etrans; [apply step_trace | apply IH].
Qed.

(** An effect, once in the trace, stays in it. *)
Lemma run_keeps_effects acts w (e : Effect) :
  e ∈ trace w → e ∈ trace (run acts w).
Proof.
  intros He. destruct (run_trace acts w) as [k ->].
  apply elem_of_app. by left.
Qed.

(** *** Writes to [closed] *)

Lemma write_closed_false_closed w :
  closed (panel (write_closed false w)) = false.
Proof.
  unfold write_closed. destruct (closed (panel w)) eqn:Hc; simpl.
  - reflexivity.
  - exact Hc.
Qed.

Lemma write_closed_true w :
  closed (panel (write_closed true w)) = true
  ∧ isClosed (panel (write_closed true w)) = isClosed (panel w)
  ∧ trace (write_closed true w)
    = trace w ++ (if closed (panel w) then []
                  else guardEffects (panel w)).
Proof.
  unfold write_closed, toggleDialog, guardEffects.
  destruct (closed (panel w)) eqn:Hc; cbn [eqb].
  - rewrite app_nil_r. auto.
  - unfold close. cbn [panel with_panel].
    change (beforeCloseOrDefault (set_closed true (panel w)))
      with (beforeCloseOrDefault (panel w)).
    destruct (beforeCloseOrDefault (panel w) ()) as [reason|pr]; simpl.
    + by rewrite <- app_assoc.
    + auto.
Qed.

(** *** Animation frames *)

Lemma animationFrame_reverts w :
  frames w ≠ [] → closed (panel (animationFrame w)) = false.
Proof.
  unfold animationFrame. intros Hne.
  destruct (frames w) as [|cb cbs _] using rev_ind; [done|].
  rewrite foldl_snoc. destruct cb. apply write_closed_false_closed.
Qed.

(** *** A parked call resumes *)


Lemma settle_rejects i w reason :
  awaiting w !! i = Some (Rejects reason) →
  settle i w
  = (requestAnimationFrame RevertClosed
       (with_awaiting (delete i (awaiting w)) w), Some Normal).
Proof. unfold settle. by intros ->. Qed.


(** A guard that throws instead of returning a promise is handled like
    a rejection, within the call. *)
Lemma close_guard_throws w reason :
  beforeCloseOrDefault (panel w) () = Throws reason →
  close w = requestAnimationFrame RevertClosed (log Called_beforeClose w).
Proof. unfold close. by intros ->. Qed.


End Sequencer.



(** C2, as stated, fails. A click on the close action of a closable
    panel calls the guard before it emits the close notification, since
    the guard is called within the write to [closed]. And an Escape key
    press that has been default-prevented neither sets [closed] nor emits
    the notification. *)
Lemma guard_called_before_close_notification :
  closable (panel vetoingAtRest) = true
  ∧ trace (step (Click IDS.close) vetoingAtRest)
    = [Called_beforeClose; Emitted calcitePanelClose]
  ∧ ¬ notifiedBeforeGuard (trace (step (Click IDS.close) vetoingAtRest))
  ∧ closed (panel (step (KeyDown preventedEscape) vetoingAtRest)) = false
  ∧ trace (step (KeyDown preventedEscape) vetoingAtRest) = [].
Proof.
  assert (Htrace : trace (step (Click IDS.close) vetoingAtRest)
                   = [Called_beforeClose; Emitted calcitePanelClose])
    by (vm_compute; reflexivity).
  split; [reflexivity|]. split; [exact Htrace|].
  split; [|split; reflexivity].
  intros Horder. rewrite Htrace in Horder.
  specialize (Horder 0%nat 1%nat eq_refl eq_refl). lia.
Qed.

(** C2, amended. For every user-initiated close (a click on the close
    action, or an Escape key press that has not been default-prevented,
    on a closable panel): [closed] is true afterwards; when the write
    changes [closed], the guard is called within it; the close
    notification is then emitted, once, while [isClosed] is still what it
    was, that is, before the guard's verdict is acted upon; and whatever
    happens later the notification stays emitted, so it fires whether or
    not the guard prevents the close. *)
Theorem user_close_notifies (a : Action) (w : World) :
  userClose a w →
  let w' := step a w in
  closed (panel w') = true
  ∧ isClosed (panel w') = isClosed (panel w)
  ∧ trace w'
    = trace w
      ++ (if closed (panel w) then [] else guardEffects (panel w))
      ++ [Emitted calcitePanelClose]
  ∧ ∀ acts : list Action,
      Emitted calcitePanelClose ∈ trace (run acts w').
Proof.
  intros [Hclosable Ha].
  assert (Hstep : step a w = handleUserClose w).
  { destruct Ha as [->|(event & -> & Hkey & Hprevented)]; simpl.
    - by apply click_close.
    - unfold panelKeyDownHandler.
      by rewrite Hclosable, Hkey, Hprevented. }
  simpl. rewrite Hstep.
  destruct (write_closed_true w) as (Hclosed & HisClosed & Htrace).
  assert (Hemitted : trace (handleUserClose w)
            = trace w
              ++ (if closed (panel w) then [] else guardEffects (panel w))
              ++ [Emitted calcitePanelClose]).
  { unfold handleUserClose, emit. simpl. by rewrite Htrace, <- app_assoc. }
  split; [exact Hclosed|]. split; [exact HisClosed|].
  split; [exact Hemitted|].
  intros acts. apply run_keeps_effects. rewrite Hemitted.
  rewrite !elem_of_app. right. right. apply list_elem_of_here.
Qed.

Lemma user_close_notifies_witness :
  closed (panel (step (Click IDS.close) vetoingAtRest)) = true
  ∧ Emitted calcitePanelClose
    ∈ trace (run [Settle 0; AnimationFrame]
               (step (Click IDS.close) vetoingAtRest)).
Proof.
  assert (Huser : userClose (Click IDS.close) vetoingAtRest).
  { split; [reflexivity | by left]. }
  destruct (user_close_notifies (Click IDS.close) vetoingAtRest Huser)
    as (Hclosed & _ & _ & Hstays).
  split; [exact Hclosed | apply Hstays].
Defined.

(** C7. On a collapsible panel that is not collapsed, a click on the
    collapse action sets [collapsed] to true, changes nothing else on the
    component, and emits the toggle notification exactly once. *)
Theorem collapse_click_toggles (w : World) :
  collapsible (panel w) = true →
  collapsed (panel w) = false →
  let w' := step (Click IDS.collapse) w in
  collapsed (panel w') = true
  ∧ panel w' = set_collapsed true (panel w)
  ∧ trace w' = trace w ++ [Emitted calcitePanelToggle].
Proof.
  intros Hcollapsible Hcollapsed. simpl.
  rewrite click_collapse by done.
  unfold collapse, emit. simpl. by rewrite Hcollapsed.
Qed.

Lemma collapse_click_toggles_witness :
  collapsed (panel (step (Click IDS.collapse)
                      (loaded (set_collapsible true initial)))) = true
  ∧ trace (step (Click IDS.collapse)
             (loaded (set_collapsible true initial)))
    = [Emitted calcitePanelToggle].
Proof.
  destruct (collapse_click_toggles (loaded (set_collapsible true initial))
              eq_refl eq_refl) as (Hcollapsed & _ & Htrace).
  split; [exact Hcollapsed | exact Htrace].
Defined.

(** ** Scenarios *)

(** A consenting guard: the click closes the panel once the guard's
    promise has fulfilled, and not before. *)
Example consenting_click_closes :
  isClosed (panel (run [Click IDS.close] (loaded consenting))) = false
  ∧ isClosed (panel (run [Click IDS.close; Settle 0] (loaded consenting)))
    = true.
Proof. split; reflexivity. Qed.

(** A vetoing guard: the panel stays open, and [closed] is true until the
    next animation frame. *)
Example vetoing_click_stays_open :
  (λ w, (closed (panel w), isClosed (panel w)))
    <$> [run [Click IDS.close] vetoingAtRest;
         run [Click IDS.close; Settle 0] vetoingAtRest;
         run [Click IDS.close; Settle 0; AnimationFrame] vetoingAtRest]
  = [(true, false); (true, false); (false, false)].
Proof. reflexivity. Qed.

(** A panel without a guard closes as with a consenting one. *)
Example unguarded_close :
  isClosed (panel (run [SetClosed true; Settle 0] (loaded initial))) = true.
Proof. reflexivity. Qed.

(** An action bar next to a plain element: only the action bar counts and
    only it is laid out horizontally. *)
Example action_bar_next_to_div :
  let doc : Document :=
    {[ 0%nat := plainDiv; 1%nat := mkElement "calcite-action-bar" None None ]}
  in
  let result :=
    handleActionBarSlotChange (slotchangeWith [0%nat; 1%nat]) initial doc in
  hasActionBar (fst result) = true
  ∧ snd result !! 0%nat = Some plainDiv
  ∧ snd result !! 1%nat
    = Some (mkElement "calcite-action-bar" (Some "horizontal") None).
Proof. vm_compute. auto. Qed.

(** * Further properties *)

(** ** What the render tree displays *)

Section Display.

Implicit Types (p : Panel) (v : VNode).

(** Below a hidden node nothing is displayed. *)
Lemma shownNodes_hidden v :
  Forall (λ x, snd x = false) (shownNodes true v).
Proof.
  induction v as [tag attrs children IH|s] using VNode_forall_ind; simpl.
  - constructor; [done|].
    induction IH as [|c cs Hc _ IHcs]; simpl; [constructor|].
    apply Forall_app. split; [exact Hc | exact IHcs].
  - by constructor.
Qed.

(** Nothing at or below a node that carries [hidden] is displayed. *)
Lemma shownNodes_of_hidden hiddenAbove v :
  isHidden v = true →
  Forall (λ x, snd x = false) (shownNodes hiddenAbove v).
Proof.
  intros Hhidden. destruct v as [tag attrs children|s]; [|done].
  cbn [shownNodes]. rewrite Hhidden, andb_false_r.
  constructor; [done|]. cbn [negb]. clear Hhidden.
  induction children as [|c cs IH]; cbn [flat_map]; [constructor|].
  apply Forall_app. split; [apply shownNodes_hidden | exact IH].
Qed.

(** The displayed nodes are found among the nodes [query] searches. *)
Lemma shownNodes_nodes hiddenAbove v :
  fst <$> shownNodes hiddenAbove v = nodes v.
Proof.
  revert hiddenAbove.
  induction v as [tag attrs children IH|s] using VNode_forall_ind;
    intros hiddenAbove; cbn [shownNodes nodes]; [|done].
  rewrite fmap_cons. cbn [fst]. f_equal.
  generalize
    (negb (negb hiddenAbove && negb (isHidden (Elem tag attrs children)))).
  intros b. induction IH as [|c cs Hc _ IHcs]; cbn [flat_map]; [done|].
  by rewrite fmap_app, Hc, IHcs.
Qed.

End Display.

(** X1. While [isClosed] holds, the only nodes of the render tree that
    are displayed are the host, the interaction container and the
    loading scrim: nothing inside the panel's [article] is. *)
Theorem closed_panel_displays_nothing (p : Panel) (v : VNode) :
  isClosed p = true →
  (v, true) ∈ shownNodes false (view p) →
  outsideArticle v = true.
Proof.
  intros Hclosed. unfold view, render.
  destruct (renderHeaderNode p) as [p' headerNode] eqn:Hheader.
  assert (Hp' : isClosed p' = true).
  { unfold renderHeaderNode in Hheader. injection Hheader as <- _.
    exact Hclosed. }
  cbn [snd]. rewrite Hp'.
  remember (h "article" [Class CSS.container; Hidden true] _) as article
    eqn:Harticle.
  assert (Hinside : (v, true) ∈ shownNodes false article → False).
  { intros Hin.
    assert (Hhidden : isHidden article = true) by (by subst article).
    pose proof (shownNodes_of_hidden false article Hhidden) as Hall.
    rewrite Forall_forall in Hall. by specialize (Hall _ Hin). }
  destruct (loading p'); cbn; rewrite !app_nil_r, !elem_of_cons.
  - intros [Hv|[Hv|[Hv|Hin]]]; [by injection Hv as ->..|].
    by destruct Hinside.
  - intros [Hv|[Hv|Hin]]; [by injection Hv as ->..|].
    by destruct Hinside.
Qed.

Lemma closed_panel_displays_nothing_witness :
  outsideArticle (h "calcite-scrim" [Loading true] []) = true.
Proof.
  apply (closed_panel_displays_nothing
           (set_isClosed true (set_loading true initial))).
  - reflexivity.
  - vm_compute. do 2 apply list_elem_of_further. apply list_elem_of_here.
Defined.

Section Regions.

Implicit Type p : Panel.

Lemma displayed_actionBar p :
  displayed (hasName SLOTS.actionBar) (view p)
  = Some (hasActionBar p && negb (isClosed p)).
Proof.
  fix_shape p; destruct isClosed0, hasStartActions0, hasEndActions0,
    hasMenuItems0; vm_compute; reflexivity.
Qed.

Lemma displayed_contentBottom p :
  displayed (hasName SLOTS.contentBottom) (view p)
  = Some (hasContentBottom p && negb (isClosed p)).
Proof.
  fix_shape p; destruct isClosed0, hasContentBottom0; vm_compute;
    reflexivity.
Qed.

Lemma displayed_footer p :
  displayed (hasName SLOTS.footer) (view p)
  = Some (hasFooterContent p && negb (isClosed p)).
Proof.
  fix_shape p; destruct isClosed0, hasFooterContent0,
    hasFooterStartContent0, hasFooterEndContent0, hasFooterActions0;
    vm_compute; reflexivity.
Qed.

Lemma displayed_headerActionsStart p :
  displayed (hasName SLOTS.headerActionsStart) (view p)
  = Some (hasStartActions p && negb (isClosed p)).
Proof.
  fix_shape p; destruct isClosed0, hasStartActions0, hasEndActions0,
    hasMenuItems0; vm_compute; reflexivity.
Qed.

Lemma displayed_headerContent p :
  displayed (hasName SLOTS.headerContent) (view p)
  = Some (hasHeaderContent p && negb (isClosed p)).
Proof.
  fix_shape p; destruct isClosed0, hasStartActions0, hasEndActions0,
    hasMenuItems0; vm_compute; reflexivity.
Qed.

Lemma displayed_headerMenuActions p :
  displayed (hasName SLOTS.headerMenuActions) (view p)
  = Some (hasMenuItems p && negb (isClosed p)).
Proof.
  fix_shape p; destruct isClosed0, hasStartActions0, hasEndActions0,
    hasMenuItems0; vm_compute; reflexivity.
Qed.

Lemma displayed_headerActionsEnd p :
  displayed (hasName SLOTS.headerActionsEnd) (view p)
  = Some ((hasEndActions p || collapsible p || closable p
           || hasMenuItems p) && negb (isClosed p)).
Proof.
  fix_shape p; destruct isClosed0, hasStartActions0, hasEndActions0,
    hasMenuItems0; vm_compute; reflexivity.
Qed.

Lemma displayed_footerStart p :
  displayed (hasName SLOTS.footerStart) (view p)
  = Some (hasFooterStartContent p && negb (hasFooterContent p)
          && negb (isClosed p)).
Proof.
  fix_shape p; destruct isClosed0, hasFooterContent0,
    hasFooterStartContent0, hasFooterEndContent0, hasFooterActions0;
    vm_compute; reflexivity.
Qed.

Lemma displayed_footerEnd p :
  displayed (hasName SLOTS.footerEnd) (view p)
  = Some (hasFooterEndContent p && negb (hasFooterContent p)
          && negb (isClosed p)).
Proof.
  fix_shape p; destruct isClosed0, hasFooterContent0,
    hasFooterStartContent0, hasFooterEndContent0, hasFooterActions0;
    vm_compute; reflexivity.
Qed.

Lemma displayed_footerActions p :
  displayed (hasName SLOTS.footerActions) (view p)
  = Some (hasFooterActions p && negb (hasFooterContent p)
          && negb (isClosed p)).
Proof.
  fix_shape p; destruct isClosed0, hasFooterContent0,
    hasFooterStartContent0, hasFooterEndContent0, hasFooterActions0;
    vm_compute; reflexivity.
Qed.

End Regions.

(** X2. For the action-bar, content-bottom, footer, header-actions-start,
    header-content and header-menu-actions regions, the slotted content
    is displayed exactly when the region's presence flag is set and the
    panel is not closed: no other state of the panel hides it, and none
    of its enclosing containers is hidden while the flag is set. *)
Theorem present_regions_displayed
  (p : Panel) (n : SLOTS.Name) (flag : Panel → bool) :
  n ∈ [SLOTS.actionBar; SLOTS.contentBottom; SLOTS.footer;
       SLOTS.headerActionsStart; SLOTS.headerContent;
       SLOTS.headerMenuActions] →
  presenceFlag n = Some flag →
  displayed (hasName n) (view p) = Some (flag p && negb (isClosed p)).
Proof.
  rewrite !elem_of_cons, elem_of_nil.
  intros [->|[->|[->|[->|[->|[->|[]]]]]]] [= <-].
  - apply displayed_actionBar.
  - apply displayed_contentBottom.
  - apply displayed_footer.
  - apply displayed_headerActionsStart.
  - apply displayed_headerContent.
  - apply displayed_headerMenuActions.
Qed.

Lemma present_regions_displayed_witness :
  displayed (hasName SLOTS.actionBar) (view (set_hasActionBar true initial))
  = Some true.
Proof.
  apply (present_regions_displayed (set_hasActionBar true initial)
           SLOTS.actionBar hasActionBar).
  - apply list_elem_of_here.
  - reflexivity.
Defined.

(** X3. The footer-start, footer-end and footer-actions content is
    displayed exactly when its own presence flag is set, the generic
    footer slot is empty and the panel is not closed. *)
Theorem footer_parts_displayed
  (p : Panel) (n : SLOTS.Name) (flag : Panel → bool) :
  n ∈ [SLOTS.footerStart; SLOTS.footerEnd; SLOTS.footerActions] →
  presenceFlag n = Some flag →
  displayed (hasName n) (view p)
  = Some (flag p && negb (hasFooterContent p) && negb (isClosed p)).
Proof.
  rewrite !elem_of_cons, elem_of_nil.
  intros [->|[->|[->|[]]]] [= <-].
  - apply displayed_footerStart.
  - apply displayed_footerEnd.
  - apply displayed_footerActions.
Qed.

Lemma footer_parts_displayed_witness :
  displayed (hasName SLOTS.footerEnd)
    (view (set_hasFooterContent true (set_hasFooterEndContent true initial)))
  = Some false.
Proof.
  apply (footer_parts_displayed
           (set_hasFooterContent true (set_hasFooterEndContent true initial))
           SLOTS.footerEnd hasFooterEndContent).
  - apply list_elem_of_further, list_elem_of_here.
  - reflexivity.
Defined.

(** X4. The content wrapper is displayed exactly when the panel is not
    closed and not both collapsible and collapsed; the floating action
    button inside it is displayed exactly when, in addition, the [fab]
    slot has content. So collapsing the panel hides the floating action
    button along with the content. *)
Theorem content_and_fab_displayed (p : Panel) :
  displayed (hasClass CSS.contentWrapper) (view p)
  = Some (negb (collapsible p && collapsed p) && negb (isClosed p))
  ∧ displayed (hasName SLOTS.fab) (view p)
    = Some (hasFab p && negb (collapsible p && collapsed p)
            && negb (isClosed p)).
Proof.
  fix_shape p; destruct isClosed0, collapsed0, hasFab0; vm_compute; auto.
Qed.

(** X5. Content slotted into [content-top] sits inside the [header]
    element: it is displayed exactly when the [content-top] slot has
    content, the panel is not closed, and the header element is itself
    visible, that is, when one of the header conditions holds or an
    action bar is present. A panel with nothing but [content-top] content
    does not display it. *)
Theorem content_top_needs_header (p : Panel) :
  displayed (hasName SLOTS.contentTop) (view p)
  = Some (hasContentTop p
          && (listedHeaderCriterion p || truthy (heading p)
              || truthy (description p) || hasActionBar p)
          && negb (isClosed p))
  ∧ displayed (hasName SLOTS.contentTop)
      (view (set_hasContentTop true initial)) = Some false.
Proof.
  split; [|reflexivity].
  fix_shape p; destruct isClosed0, hasContentTop0, hasStartActions0,
    hasEndActions0, hasMenuItems0; vm_compute; reflexivity.
Qed.

(** X6. The container of the header's end actions, and with it the
    [header-actions-end] slot, is displayed exactly when the panel is not
    closed and the slot has content, or the panel is collapsible or
    closable, or menu items are present. *)
Theorem header_actions_end_displayed (p : Panel) :
  displayed (hasName SLOTS.headerActionsEnd) (view p)
  = Some ((hasEndActions p || collapsible p || closable p
           || hasMenuItems p) && negb (isClosed p))
  ∧ displayed (hasClass CSS.headerActionsEnd) (view p)
    = displayed (hasName SLOTS.headerActionsEnd) (view p).
Proof.
  split; [apply displayed_headerActionsEnd|].
  fix_shape p; destruct isClosed0, hasStartActions0, hasEndActions0,
    hasMenuItems0; vm_compute; reflexivity.
Qed.

(** X7. The close action is in the tree exactly when the panel is
    closable and the collapse action exactly when it is collapsible; an
    action that is in the tree is displayed exactly when the panel is not
    closed. *)
Theorem actions_displayed (p : Panel) :
  displayed (hasId IDS.close) (view p)
  = (if closable p then Some (negb (isClosed p)) else None)
  ∧ displayed (hasId IDS.collapse) (view p)
    = (if collapsible p then Some (negb (isClosed p)) else None).
Proof.
  fix_shape p; destruct isClosed0, hasStartActions0, hasEndActions0,
    hasMenuItems0; vm_compute; auto.
Qed.

(** X8. The loading scrim is in the tree exactly when [loading] is set,
    and is then displayed whether or not the panel is closed; the
    [alerts] slot is displayed exactly when the panel is not closed. *)
Theorem scrim_and_alerts_displayed (p : Panel) :
  displayed (hasTag "calcite-scrim") (view p)
  = (if loading p then Some true else None)
  ∧ displayed (hasName SLOTS.alerts) (view p) = Some (negb (isClosed p)).
Proof.
  fix_shape p; destruct isClosed0, hasStartActions0, hasEndActions0,
    hasMenuItems0; vm_compute; auto.
Qed.

(** X9. A render pass writes nothing but the [showHeaderContent] member,
    which it sets to the visibility of the header container. The tree
    depends neither on that member nor on the public [closed] property,
    so a second pass yields the same tree and the same component. *)
Theorem render_is_stable (p : Panel) :
  fst (render p) = set_showHeaderContent (showHeaderContent (fst (render p))) p
  ∧ hiddenOf (hasClass CSS.headerContainer) (view p)
    = Some (negb (showHeaderContent (fst (render p))))
  ∧ view (fst (render p)) = view p
  ∧ fst (render (fst (render p))) = fst (render p)
  ∧ (∀ v : bool, view (set_closed v p) = view p)
  ∧ (∀ v : bool, view (set_showHeaderContent v p) = view p).
Proof.
  split; [reflexivity|]. split; [apply showHeaderContent_cached|].
  destruct p; repeat split; reflexivity.
Qed.

(** X10. The collapse action's icon: with direction ["down"] a collapsed
    panel shows the expand icon and an expanded one the collapse icon;
    direction ["up"] swaps the two, so it shows for each state the icon
    the other direction shows for the opposite state. An icon is always
    defined. *)
Theorem collapse_icon_mirrors (d : CollapseDirection) (c : bool) :
  collapseIcon down true = Some ICONS.expand
  ∧ collapseIcon down false = Some ICONS.collapse
  ∧ collapseIcon up c = collapseIcon down (negb c)
  ∧ is_Some (collapseIcon d c)
  ∧ collapseIcon d c ≠ collapseIcon d (negb c).
Proof. destruct d, c; repeat split; cbv; eauto; discriminate. Qed.

(** X25. The [header] element is displayed exactly when the panel is not
    closed and the header container is visible or an action bar is
    present; the [footer] element exactly when the panel is not closed
    and at least one of the four footer slots has content. *)
Theorem header_and_footer_displayed (p : Panel) :
  displayed (hasClass CSS.header) (view p)
  = Some ((listedHeaderCriterion p || truthy (heading p)
           || truthy (description p) || hasActionBar p)
          && negb (isClosed p))
  ∧ displayed (hasClass CSS.footer) (view p)
    = Some ((hasFooterStartContent p || hasFooterEndContent p
             || hasFooterContent p || hasFooterActions p)
            && negb (isClosed p)).
Proof.
  split.
  - fix_shape p; destruct isClosed0, hasStartActions0, hasEndActions0,
      hasMenuItems0; vm_compute; reflexivity.
  - fix_shape p; destruct isClosed0, hasFooterContent0,
      hasFooterStartContent0, hasFooterEndContent0, hasFooterActions0;
      vm_compute; reflexivity.
Qed.

(** ** More on the close/open sequencer *)

Section SequencerInvariants.

Implicit Types (w : World) (p : Panel).

Lemma write_closed_keeps_open v w :
  isClosed (panel w) = false →
  isClosed (panel (write_closed v w)) = false.
Proof.
  intros Hopen. destruct v.
  - destruct (write_closed_true w) as (_ & -> & _). exact Hopen.
  - unfold write_closed. by destruct (closed (panel w)).
Qed.

Lemma resizeHandler_isClosed p : isClosed (resizeHandler p) = isClosed p.
Proof.
  unfold resizeHandler. destruct (panelScrollEl p) as [el|]; [|done].
  destruct (scrollHeight el); [|done].
  destruct (offsetHeight el); [|done].
  by destruct (_ >? _)%Z.
Qed.

Lemma writes_closed_false_keep_open (cbs : list FrameCallback) w :
  isClosed (panel w) = false →
  isClosed (panel (foldl (λ w' cb, runFrameCallback cb w') w cbs)) = false.
Proof.
  revert w. induction cbs as [|[] cbs IH]; intros w Hopen; simpl; [done|].
  by apply IH, write_closed_keeps_open.
Qed.

(** A revert that follows a revert does nothing. *)
Lemma write_closed_false_twice w :
  write_closed false (write_closed false w) = write_closed false w.
Proof.
  unfold write_closed at 1. by rewrite write_closed_false_closed.
Qed.

Lemma reverts_collapse (cbs : list FrameCallback) w :
  foldl (λ w' cb, runFrameCallback cb w') (write_closed false w) cbs
  = write_closed false w.
Proof.
  induction cbs as [|[] cbs IH]; simpl; [done|].
  by rewrite write_closed_false_twice.
Qed.

Lemma delete_last {A} (l : list A) (x : A) :
  delete (length l) (l ++ [x]) = l.
Proof. induction l as [|y l IH]; simpl; [done|]. by rewrite IH. Qed.

Lemma set_isClosed_after_toggle p :
  closed p = false →
  set_isClosed false (set_closed false (set_closed true p))
  = set_isClosed false p.
Proof. destruct p; simpl. by intros ->. Qed.

(** The write that starts a close, by what the guard does. *)
Lemma write_closed_true_parks w (pr : Promise) :
  closed (panel w) = false →
  beforeCloseOrDefault (panel w) () = Returns pr →
  write_closed true w
  = with_awaiting (awaiting w ++ [pr])
      (log Called_beforeClose (with_panel (set_closed true) w)).
Proof.
  intros Hclosed Hguard. unfold write_closed. rewrite Hclosed.
  cbn [eqb toggleDialog]. unfold close. cbn [panel with_panel].
  change (beforeCloseOrDefault (set_closed true (panel w)))
    with (beforeCloseOrDefault (panel w)).
  by rewrite Hguard.
Qed.

Lemma write_closed_true_throws w (reason : string) :
  closed (panel w) = false →
  beforeCloseOrDefault (panel w) () = Throws reason →
  write_closed true w
  = requestAnimationFrame RevertClosed
      (log Called_beforeClose (with_panel (set_closed true) w)).
Proof.
  intros Hclosed Hguard. unfold write_closed. rewrite Hclosed.
  cbn [eqb toggleDialog]. unfold close. cbn [panel with_panel].
  change (beforeCloseOrDefault (set_closed true (panel w)))
    with (beforeCloseOrDefault (panel w)).
  by rewrite Hguard.
Qed.

End SequencerInvariants.

(** X11. Only a guard that fulfils closes the panel: whatever happens to
    an open panel, [isClosed] becomes true only in the step in which a
    parked [close] resumes on a fulfilled promise. No property write,
    click, key press, animation frame, slot change, resize, scroll or
    render sets it. *)
Theorem only_fulfilled_guard_closes (a : Action) (w : World) :
  isClosed (panel w) = false →
  isClosed (panel (step a w)) = true →
  ∃ i : nat, a = Settle i ∧ awaiting w !! i = Some Fulfils.
Proof.
  intros Hopen Hclosed.
  destruct a as [v|i|event|i| |f event| | |]; simpl in Hclosed.
  - by rewrite write_closed_keeps_open in Hclosed.
  - destruct i.
    + destruct (closable (panel w)) eqn:Hc.
      * rewrite click_close in Hclosed by done.
        unfold handleUserClose, emit in Hclosed. simpl in Hclosed.
        by rewrite write_closed_keeps_open in Hclosed.
      * rewrite click_close_absent in Hclosed by done. congruence.
    + destruct (collapsible (panel w)) eqn:Hc.
      * rewrite click_collapse in Hclosed by done.
        simpl in Hclosed. congruence.
      * rewrite click_collapse_absent in Hclosed by done. congruence.
  - unfold panelKeyDownHandler in Hclosed.
    destruct (_ && _); simpl in Hclosed; [|congruence].
    by rewrite write_closed_keeps_open in Hclosed.
  - exists i. split; [done|].
    unfold settle in Hclosed.
    destruct (awaiting w !! i) as [[|reason|]|]; simpl in Hclosed;
      done || congruence.
  - unfold animationFrame in Hclosed.
    by rewrite writes_closed_false_keep_open in Hclosed.
  - destruct f; simpl in Hclosed; congruence.
  - rewrite resizeHandler_isClosed in Hclosed. congruence.
  - congruence.
  - congruence.
Qed.

Lemma only_fulfilled_guard_closes_witness :
  ∃ i : nat,
    Settle 0 = Settle i
    ∧ awaiting (run [SetClosed true] (loaded consenting)) !! i
      = Some Fulfils.
Proof.
  apply (only_fulfilled_guard_closes (Settle 0)
           (run [SetClosed true] (loaded consenting)));
    reflexivity.
Defined.

(** X12. Opening is unconditional and immediate: writing [false] to
    [closed] on a panel whose [closed] is true clears [isClosed] within
    the write, without calling the guard, without any effect, and without
    touching the parked calls or the pending frames. *)
Theorem open_is_immediate (w : World) :
  closed (panel w) = true →
  let w' := step (SetClosed false) w in
  closed (panel w') = false
  ∧ isClosed (panel w') = false
  ∧ panel w' = set_isClosed false (set_closed false (panel w))
  ∧ trace w' = trace w
  ∧ awaiting w' = awaiting w
  ∧ frames w' = frames w.
Proof.
  intros Hclosed. simpl. unfold write_closed. rewrite Hclosed. simpl.
  repeat split.
Qed.

Lemma open_is_immediate_witness :
  isClosed (panel (step (SetClosed false)
                     (run [SetClosed true; Settle 0] (loaded consenting))))
  = false.
Proof.
  destruct (open_is_immediate
              (run [SetClosed true; Settle 0] (loaded consenting))
              eq_refl) as (_ & Hopen & _).
  exact Hopen.
Defined.

(** X13. Reopening does not cancel a close that is waiting for its
    guard. If [closed] is written true and then false while the guard's
    promise is pending, and the promise then fulfils, the resumed call
    still sets [isClosed]: the panel is hidden although [closed] is
    false, and a further write of [false] to [closed] changes nothing. *)
Theorem reopen_does_not_cancel_close (w : World) :
  closed (panel w) = false →
  beforeCloseOrDefault (panel w) () = Returns Fulfils →
  let w' :=
    run [SetClosed true; SetClosed false; Settle (length (awaiting w))] w in
  closed (panel w') = false
  ∧ isClosed (panel w') = true
  ∧ step (SetClosed false) w' = w'.
Proof.
  intros Hclosed Hguard.
  assert (Hrun : run [SetClosed true; SetClosed false;
                      Settle (length (awaiting w))] w
            = with_panel (set_isClosed true)
                (with_awaiting (awaiting w)
                   (with_panel (set_isClosed false)
                      (with_panel (set_closed false)
                         (log Called_beforeClose
                            (with_panel (set_closed true) w)))))).
  { unfold run. cbn [foldl step].
    unfold write_closed at 2. rewrite Hclosed. cbn [eqb toggleDialog].
    unfold close. cbn [panel with_panel].
    change (beforeCloseOrDefault (set_closed true (panel w)))
      with (beforeCloseOrDefault (panel w)).
    rewrite Hguard. unfold write_closed. cbn. unfold settle. cbn.
    rewrite list_lookup_middle by done. cbn.
    by rewrite delete_last. }
  cbn zeta. rewrite Hrun. cbn. unfold write_closed. cbn. done.
Qed.

Lemma reopen_does_not_cancel_close_witness :
  isClosed (panel (run [SetClosed true; SetClosed false; Settle 0]
                     (loaded consenting))) = true.
Proof.
  destruct (reopen_does_not_cancel_close (loaded consenting)
              eq_refl eq_refl) as (_ & Hhidden & _).
  exact Hhidden.
Defined.

(** X14. A vetoed close leaves no residue. On a panel with [closed]
    false and no pending frame whose guard rejects: writing [closed],
    letting the promise settle and running the next animation frame
    brings back the component as it was, with [isClosed] false, the
    same parked calls and no pending frame; the only effects are the
    guard's call and the frame request. *)
Theorem vetoed_close_round_trip (w : World) (reason : string) :
  closed (panel w) = false →
  frames w = [] →
  beforeCloseOrDefault (panel w) () = Returns (Rejects reason) →
  let w' :=
    run [SetClosed true; Settle (length (awaiting w)); AnimationFrame] w in
  panel w' = set_isClosed false (panel w)
  ∧ awaiting w' = awaiting w
  ∧ frames w' = []
  ∧ document w' = document w
  ∧ trace w' = trace w ++ [Called_beforeClose; RequestedFrame].
Proof.
  intros Hclosed Hframes Hguard.
  unfold run. cbn [foldl step].
  rewrite (write_closed_true_parks w (Rejects reason)) by done.
  rewrite (settle_rejects _ _ reason)
    by (cbn; by rewrite list_lookup_middle).
  cbn [fst awaiting with_awaiting log]. rewrite delete_last.
  unfold animationFrame, requestAnimationFrame. cbn. rewrite Hframes. cbn.
  unfold write_closed. cbn.
  rewrite set_isClosed_after_toggle by done.
  by rewrite <- app_assoc.
Qed.

Lemma vetoed_close_round_trip_witness :
  panel (run [SetClosed true; Settle 0; AnimationFrame] vetoingAtRest)
  = panel vetoingAtRest.
Proof.
  destruct (vetoed_close_round_trip vetoingAtRest "unsaved changes"
              eq_refl eq_refl eq_refl) as (Hpanel & _).
  exact Hpanel.
Defined.

(** X15. A guard that throws instead of returning a promise vetoes the
    close without parking the call: the frame is requested within the
    write to [closed], nothing waits for a promise, and the next
    animation frame brings the component back as for a rejection. *)
Theorem throwing_guard_vetoes (w : World) (reason : string) :
  closed (panel w) = false →
  frames w = [] →
  beforeCloseOrDefault (panel w) () = Throws reason →
  let w1 := step (SetClosed true) w in
  let w2 := step AnimationFrame w1 in
  closed (panel w1) = true
  ∧ isClosed (panel w1) = isClosed (panel w)
  ∧ awaiting w1 = awaiting w
  ∧ frames w1 = [RevertClosed]
  ∧ trace w1 = trace w ++ [Called_beforeClose; RequestedFrame]
  ∧ panel w2 = set_isClosed false (panel w)
  ∧ frames w2 = []
  ∧ trace w2 = trace w1.
Proof.
  intros Hclosed Hframes Hguard. cbn [step].
  rewrite (write_closed_true_throws w reason) by done.
  unfold animationFrame, requestAnimationFrame. cbn. rewrite Hframes. cbn.
  unfold write_closed. cbn.
  rewrite set_isClosed_after_toggle by done.
  rewrite <- app_assoc. repeat split.
Qed.

(** A panel whose guard throws. *)
Lemma throwing_guard_vetoes_witness :
  frames (step (SetClosed true)
            (loaded (set_beforeClose (Some (λ _, Throws "busy")) initial)))
  = [RevertClosed].
Proof.
  destruct (throwing_guard_vetoes
              (loaded (set_beforeClose (Some (λ _, Throws "busy")) initial))
              "busy" eq_refl eq_refl eq_refl) as (_ & _ & _ & Hframes & _).
  exact Hframes.
Defined.

Section Notifications.

Implicit Types (w : World) (p : Panel).

Lemma write_closed_false_trace w :
  trace (write_closed false w) = trace w.
Proof. unfold write_closed. by destruct (closed (panel w)). Qed.

Lemma write_closed_false_awaiting w :
  awaiting (write_closed false w) = awaiting w.
Proof. unfold write_closed. by destruct (closed (panel w)). Qed.

Lemma write_closed_false_frames w :
  frames (write_closed false w) = frames w.
Proof. unfold write_closed. by destruct (closed (panel w)). Qed.

(** An animation frame with pending reverts is one revert; without any
    it is nothing. *)
Lemma animationFrame_unfold w :
  animationFrame w
  = match frames w with
    | [] => w
    | _ :: _ => write_closed false (with_frames [] w)
    end.
Proof.
  unfold animationFrame. destruct (frames w) as [|[] cbs] eqn:Hframes.
  - destruct w; simpl in *. by subst.
  - cbn [foldl runFrameCallback]. apply reverts_collapse.
Qed.

Lemma animationFrame_same_trace w : trace (animationFrame w) = trace w.
Proof.
  rewrite animationFrame_unfold. destruct (frames w); [done|].
  by rewrite write_closed_false_trace.
Qed.

(** The effects of a write to [closed] are the guard's. *)
Lemma write_closed_effects v w :
  ∃ k, trace (write_closed v w) = trace w ++ k
       ∧ ∀ e, e ∈ k → e = Called_beforeClose ∨ e = RequestedFrame.
Proof.
  destruct v.
  - destruct (write_closed_true w) as (_ & _ & ->).
    eexists. split; [reflexivity|].
    destruct (closed (panel w)); [by intros e ?%elem_of_nil|].
    unfold guardEffects. intros e.
    destruct (beforeCloseOrDefault (panel w) ());
      rewrite ?elem_of_cons, elem_of_nil; intuition.
  - exists []. rewrite app_nil_r, write_closed_false_trace.
    split; [done|]. by intros e ?%elem_of_nil.
Qed.

End Notifications.

(** X16. The close notification comes from the user only: whenever a
    step emits [calcitePanelClose], the step is a click on the close
    action or an Escape key press that was not default-prevented, on a
    closable panel. In particular a write to [closed] from outside, a
    settling guard and an animation frame never emit it. *)
Theorem close_notification_only_from_user
  (a : Action) (w : World) (k : list Effect) :
  trace (step a w) = trace w ++ k →
  Emitted calcitePanelClose ∈ k →
  userClose a w.
Proof.
  intros Htrace Hin.
  assert (Hnone : ∀ k', trace (step a w) = trace w ++ k' →
                        Emitted calcitePanelClose ∉ k' → False).
  { intros k' Hk' Hnot. rewrite Hk' in Htrace.
    apply app_inv_head in Htrace. by subst. }
  destruct a as [v|i|event|i| |f event| | |].
  - exfalso. destruct (write_closed_effects v w) as (k' & Hk' & Honly).
    apply (Hnone k' Hk'). intros [?|?]%Honly; discriminate.
  - destruct i.
    + destruct (closable (panel w)) eqn:Hc.
      * split; [done | by left].
      * exfalso. apply (Hnone []).
        -- simpl. by rewrite click_close_absent, app_nil_r.
        -- apply not_elem_of_nil.
    + exfalso. destruct (collapsible (panel w)) eqn:Hc.
      * apply (Hnone [Emitted calcitePanelToggle]).
        -- simpl. by rewrite click_collapse.
        -- rewrite elem_of_cons, elem_of_nil. intros [?|[]]. discriminate.
      * apply (Hnone []).
        -- simpl. by rewrite click_collapse_absent, app_nil_r.
        -- apply not_elem_of_nil.
  - destruct (closable (panel w)) eqn:Hc;
      destruct (String.eqb_spec (key event) "Escape") as [Hkey|Hkey];
      destruct (defaultPrevented event) eqn:Hp;
      try (split; [done|]; right; by exists event);
      exfalso; apply (Hnone []); try apply not_elem_of_nil;
      simpl; unfold panelKeyDownHandler; rewrite Hc, Hp;
      (rewrite Hkey || (apply String.eqb_neq in Hkey; rewrite Hkey));
      simpl; by rewrite app_nil_r.
  - exfalso. simpl in Hnone. unfold settle in Hnone.
    destruct (awaiting w !! i) as [[|reason|]|].
    + apply (Hnone []); [by rewrite app_nil_r | apply not_elem_of_nil].
    + apply (Hnone [RequestedFrame]); [done|].
      rewrite elem_of_cons, elem_of_nil. intros [?|[]]. discriminate.
    + apply (Hnone []); [by rewrite app_nil_r | apply not_elem_of_nil].
    + apply (Hnone []); [by rewrite app_nil_r | apply not_elem_of_nil].
  - exfalso. apply (Hnone []); [|apply not_elem_of_nil].
    simpl. by rewrite animationFrame_same_trace, app_nil_r.
  - exfalso. apply (Hnone []); [|apply not_elem_of_nil].
    simpl. by rewrite invokeSlotchange_trace, app_nil_r.
  - exfalso. apply (Hnone []); [|apply not_elem_of_nil].
    simpl. by rewrite app_nil_r.
  - exfalso. apply (Hnone [Emitted calcitePanelScroll]); [done|].
    rewrite elem_of_cons, elem_of_nil. intros [?|[]]. discriminate.
  - exfalso. apply (Hnone []); [|apply not_elem_of_nil].
    simpl. by rewrite app_nil_r.
Qed.

Lemma close_notification_only_from_user_witness :
  userClose (Click IDS.close) vetoingAtRest.
Proof.
  apply (close_notification_only_from_user (Click IDS.close) vetoingAtRest
           [Called_beforeClose; Emitted calcitePanelClose]).
  - reflexivity.
  - apply list_elem_of_further, list_elem_of_here.
Defined.

(** X17. An animation frame empties the queue of pending callbacks and
    has no effect of its own: with nothing pending it changes nothing,
    and with any number of pending reverts it acts as a single write of
    [false] to [closed], after which [closed] is false. Parked calls are
    left waiting. *)
Theorem animation_frame_runs_reverts (w : World) :
  animationFrame w
  = match frames w with
    | [] => w
    | _ :: _ => write_closed false (with_frames [] w)
    end
  ∧ frames (animationFrame w) = []
  ∧ trace (animationFrame w) = trace w
  ∧ awaiting (animationFrame w) = awaiting w
  ∧ (frames w ≠ [] → closed (panel (animationFrame w)) = false).
Proof.
  split; [apply animationFrame_unfold|].
  split.
  { rewrite animationFrame_unfold. destruct (frames w) eqn:Hf; [done|].
    by rewrite write_closed_false_frames. }
  split; [apply animationFrame_same_trace|].
  split; [|apply animationFrame_reverts].
  rewrite animationFrame_unfold. destruct (frames w); [done|].
  by rewrite write_closed_false_awaiting.
Qed.

Lemma animation_frame_runs_reverts_witness :
  closed (panel (animationFrame
                   (run [SetClosed true; Settle 0] vetoingAtRest))) = false.
Proof.
  destruct (animation_frame_runs_reverts
              (run [SetClosed true; Settle 0] vetoingAtRest))
    as (_ & _ & _ & _ & Hreverts).
  apply Hreverts. discriminate.
Defined.

(** X18. The key handler acts on a key press exactly when it is a
    user-initiated close: then it closes as a click on the close action
    does and marks the event default-prevented, so the same event is
    never acted on twice; any other key press leaves both the component
    and the event as they were. *)
Theorem key_handler_handles_escape_once
  (event : KeyboardEvent) (w w2 : World) :
  (userClose (KeyDown event) w →
   panelKeyDownHandler event w = (handleUserClose w, preventDefault event)
   ∧ panelKeyDownHandler (preventDefault event) w2
     = (w2, preventDefault event)
   ∧ step (KeyDown event) w = step (Click IDS.close) w)
  ∧ (¬ userClose (KeyDown event) w →
     panelKeyDownHandler event w = (w, event)).
Proof.
  unfold panelKeyDownHandler. split.
  - intros [Hc [Hclick|(event' & [= <-] & Hkey & Hp)]]; [discriminate|].
    rewrite Hc, Hkey, Hp. cbn. rewrite andb_false_r.
    split; [done|]. split; [done|].
    rewrite click_close by done. unfold panelKeyDownHandler.
    by rewrite Hc, Hkey, Hp.
  - intros Hnot.
    destruct (closable (panel w)) eqn:Hc; [|done].
    destruct (String.eqb_spec (key event) "Escape") as [Hkey|Hkey];
      [|done].
    destruct (defaultPrevented event) eqn:Hp; [done|].
    destruct Hnot. split; [done|]. right. by exists event.
Qed.

Lemma key_handler_handles_escape_once_witness :
  panelKeyDownHandler {| key := "Escape"; defaultPrevented := false |}
    vetoingAtRest
  = (handleUserClose vetoingAtRest, preventedEscape)
  ∧ panelKeyDownHandler preventedEscape vetoingAtRest
    = (vetoingAtRest, preventedEscape).
Proof.
  destruct (key_handler_handles_escape_once
              {| key := "Escape"; defaultPrevented := false |}
              vetoingAtRest vetoingAtRest) as [Hhandled _].
  destruct Hhandled as (Hfirst & Hsecond & _).
  - split; [reflexivity|]. right. eexists. repeat split.
  - split; [exact Hfirst | exact Hsecond].
Defined.

(** X19. Collapsing is an involution: on a collapsible panel two clicks
    on the collapse action bring back the component as it was and emit
    the toggle notification twice; each click flips [collapsed] whatever
    its value, and neither touches the close sequencer. *)
Theorem collapse_twice_restores (w : World) :
  collapsible (panel w) = true →
  let w1 := step (Click IDS.collapse) w in
  let w2 := step (Click IDS.collapse) w1 in
  collapsed (panel w1) = negb (collapsed (panel w))
  ∧ panel w2 = panel w
  ∧ trace w2 = trace w ++ [Emitted calcitePanelToggle;
                           Emitted calcitePanelToggle]
  ∧ awaiting w2 = awaiting w
  ∧ frames w2 = frames w.
Proof.
  intros Hc. cbn [step]. rewrite (click_collapse w) by done.
  rewrite click_collapse by (simpl; done).
  unfold collapse, emit. simpl. rewrite <- app_assoc.
  repeat split. destruct (panel w) as []; simpl. by rewrite negb_involutive.
Qed.

Lemma collapse_twice_restores_witness :
  panel (step (Click IDS.collapse)
           (step (Click IDS.collapse)
              (loaded (set_collapsible true initial))))
  = set_collapsible true initial.
Proof.
  destruct (collapse_twice_restores (loaded (set_collapsible true initial))
              eq_refl) as (_ & Hpanel & _).
  exact Hpanel.
Defined.

(** ** More on the slot listeners and the scroll element *)

Section SlotStores.

Implicit Types (doc : Document) (r : NodeRef) (refs : list NodeRef).

Lemma isAlert_spec doc r (el : Element) :
  doc !! r = Some el →
  isAlert doc r = String.eqb (nodeName el) "CALCITE-ALERT".
Proof.
  intros Hel. unfold isAlert. rewrite Hel. simpl.
  destruct (String.eqb_spec (nodeName el) "CALCITE-ALERT") as [->|Hne].
  - by apply bool_decide_eq_true_2.
  - apply bool_decide_eq_false_2. congruence.
Qed.

Lemma embedAlert_lookup doc r0 r :
  embedAlert doc r0 !! r
  = if bool_decide (r0 = r) && isAlert doc r
    then set_embedded true <$> doc !! r
    else doc !! r.
Proof.
  unfold embedAlert. case_bool_decide as Heq; cbn [andb].
  - subst r0. destruct (doc !! r) as [el|] eqn:Hel.
    + rewrite (isAlert_spec doc r el Hel).
      destruct (String.eqb (nodeName el) "CALCITE-ALERT"); [|done].
      by rewrite lookup_insert_eq.
    + unfold isAlert. rewrite Hel. by cbn.
  - destruct (doc !! r0) as [el|]; [|done].
    destruct (String.eqb (nodeName el) "CALCITE-ALERT"); [|done].
    by rewrite lookup_insert_ne.
Qed.

Lemma embedAlert_isAlert doc r0 r :
  isAlert (embedAlert doc r0) r = isAlert doc r.
Proof.
  unfold isAlert at 1. rewrite embedAlert_lookup.
  destruct (bool_decide (r0 = r) && isAlert doc r); [|done].
  unfold isAlert. by destruct (doc !! r).
Qed.

Lemma handleAlerts_lookup refs doc r :
  foldl embedAlert doc refs !! r
  = if bool_decide (r ∈ refs) && isAlert doc r
    then set_embedded true <$> doc !! r
    else doc !! r.
Proof.
  revert doc. induction refs as [|r0 refs IH]; intros doc; cbn [foldl].
  - by rewrite bool_decide_eq_false_2 by apply not_elem_of_nil.
  - rewrite IH, embedAlert_isAlert, embedAlert_lookup.
    destruct (isAlert doc r) eqn:Halert;
      rewrite ?andb_false_r, ?andb_true_r; [|done].
    destruct (decide (r0 = r)) as [->|Hne].
    + rewrite (bool_decide_eq_true_2 (r = r)) by done.
      rewrite (bool_decide_eq_true_2 (r ∈ r :: refs))
        by apply list_elem_of_here.
      case_bool_decide; [|done]. by destruct (doc !! r).
    + rewrite (bool_decide_eq_false_2 (r0 = r)) by done.
      apply (f_equal (λ b : bool,
               if b then set_embedded true <$> doc !! r else doc !! r)).
      apply bool_decide_ext. rewrite elem_of_cons.
      split; [by right | intros [?|?]; [congruence|done]].
Qed.

(** The action-bar test reads the local name, which a layout change
    keeps. *)
Lemma forEach_setLayout_isActionBar refs doc r :
  isActionBar (forEach_setLayout refs doc) r = isActionBar doc r.
Proof.
  unfold isActionBar. rewrite forEach_setLayout_lookup.
  destruct (bool_decide (r ∈ refs)); [|done]. by destruct (doc !! r).
Qed.

Lemma fmap_set_layout_twice (v : string) (o : option Element) :
  set_layout v <$> (set_layout v <$> o) = set_layout v <$> o.
Proof. by destruct o. Qed.

Lemma forEach_setLayout_twice refs doc :
  forEach_setLayout refs (forEach_setLayout refs doc)
  = forEach_setLayout refs doc.
Proof.
  apply map_eq. intros r. rewrite !forEach_setLayout_lookup.
  destruct (decide (r ∈ refs)) as [Hin|Hin].
  - rewrite !bool_decide_eq_true_2 by done. cbv iota.
    apply fmap_set_layout_twice.
  - by rewrite !bool_decide_eq_false_2 by done.
Qed.

End SlotStores.

(** X20. On an alerts slot change every assigned element whose node name
    is [CALCITE-ALERT] gets [embedded] set to true and keeps its other
    members; every other element of the document, assigned or not, is
    left as it was. An assigned element whose local name is
    [calcite-alert] is therefore embedded afterwards. *)
Theorem alerts_slotchange_embeds
  (event : SlotChangeEvent) (doc : Document) (r : NodeRef) :
  handleAlertsSlotChange event doc !! r
  = (if bool_decide (r ∈ assignedElements (target event))
        && bool_decide (nodeName <$> doc !! r = Some "CALCITE-ALERT")
     then set_embedded true <$> doc !! r
     else doc !! r)
  ∧ (∀ el : Element,
       r ∈ assignedElements (target event) →
       doc !! r = Some el →
       localName el = "calcite-alert" →
       embedded <$> handleAlertsSlotChange event doc !! r
       = Some (Some true)).
Proof.
  assert (Hlookup : handleAlertsSlotChange event doc !! r
            = if bool_decide (r ∈ assignedElements (target event))
                 && isAlert doc r
              then set_embedded true <$> doc !! r
              else doc !! r)
    by apply handleAlerts_lookup.
  split; [exact Hlookup|].
  intros el Hin Hel Hname. rewrite Hlookup.
  rewrite bool_decide_eq_true_2 by done.
  rewrite (isAlert_spec doc r el Hel). unfold nodeName. rewrite Hname.
  cbn. by rewrite Hel.
Qed.

(** A document with one alert. *)
Lemma alerts_slotchange_embeds_witness :
  embedded
    <$> handleAlertsSlotChange (slotchangeWith [3%nat])
          {[ 3%nat := mkElement "calcite-alert" None None ]} !! 3%nat
  = Some (Some true).
Proof.
  destruct (alerts_slotchange_embeds (slotchangeWith [3%nat])
              {[ 3%nat := mkElement "calcite-alert" None None ]} 3%nat)
    as [_ Hembedded].
  apply (Hembedded (mkElement "calcite-alert" None None)).
  - apply list_elem_of_here.
  - reflexivity.
  - reflexivity.
Defined.

(** X21. The action-bar listener is idempotent: running it again on the
    same slot content changes neither the component nor the document. *)
Theorem action_bar_slotchange_idempotent
  (event : SlotChangeEvent) (p : Panel) (doc : Document) :
  handleActionBarSlotChange event
    (fst (handleActionBarSlotChange event p doc))
    (snd (handleActionBarSlotChange event p doc))
  = handleActionBarSlotChange event p doc.
Proof.
  unfold handleActionBarSlotChange. cbn [fst snd].
  set (refs := slotChangeGetAssignedElements event).
  set (bars := List.filter (isActionBar doc) refs).
  assert (Hsame : List.filter (isActionBar (forEach_setLayout bars doc)) refs
                  = bars).
  { apply filter_ext. intros r. apply forEach_setLayout_isActionBar. }
  by rewrite Hsame, forEach_setLayout_twice.
Qed.

(** X22. The resize handler is idempotent: a second run without a change
    of the measurements changes nothing. *)
Theorem resize_idempotent (p : Panel) :
  resizeHandler (resizeHandler p) = resizeHandler p.
Proof.
  assert (Hset : ∀ el : ScrollEl,
             setAttribute "tabindex" "0" (setAttribute "tabindex" "0" el)
             = setAttribute "tabindex" "0" el).
  { intros el. unfold setAttribute. cbn. f_equal. apply insert_insert_eq. }
  assert (Hremove : ∀ el : ScrollEl,
             removeAttribute "tabindex" (removeAttribute "tabindex" el)
             = removeAttribute "tabindex" el).
  { intros el. unfold removeAttribute. cbn. f_equal.
    apply delete_delete_eq. }
  assert (Hnoop : resizeHandler p = p → resizeHandler (resizeHandler p)
                                        = resizeHandler p)
    by (intros H; by rewrite !H).
  destruct (panelScrollEl p) as [el|] eqn:Hel;
    [|apply Hnoop; unfold resizeHandler; by rewrite Hel].
  destruct (scrollHeight el) as [sh|] eqn:Hsh;
    [|apply Hnoop; unfold resizeHandler; by rewrite Hel, Hsh].
  destruct (offsetHeight el) as [oh|] eqn:Hoh;
    [|apply Hnoop; unfold resizeHandler; by rewrite Hel, Hsh, Hoh].
  destruct (sh >? oh)%Z eqn:Hgt.
  - assert (Hr : resizeHandler p
             = set_panelScrollEl
                 (Some (setAttribute "tabindex" "0" el)) p).
    { unfold resizeHandler. by rewrite Hel, Hsh, Hoh, Hgt. }
    rewrite Hr. unfold resizeHandler. cbn. by rewrite Hsh, Hoh, Hgt, Hset.
  - assert (Hr : resizeHandler p
             = set_panelScrollEl
                 (Some (removeAttribute "tabindex" el)) p).
    { unfold resizeHandler. by rewrite Hel, Hsh, Hoh, Hgt. }
    rewrite Hr. unfold resizeHandler. cbn.
    by rewrite Hsh, Hoh, Hgt, Hremove.
Qed.

(** X23. The listeners that write a presence flag do not interfere: two
    different ones give the same world in either order, so the order in
    which slot-change events of different regions arrive does not matter;
    and of two events for the same region the later one decides. None of
    them touches the document, the parked calls, the pending frames or
    the trace. *)
Theorem presence_listeners_commute
  (f g : Handler) (e1 e2 : SlotChangeEvent) (w : World) :
  writesPresenceFlag f = true →
  writesPresenceFlag g = true →
  (f ≠ g →
   invokeSlotchange f e1 (invokeSlotchange g e2 w)
   = invokeSlotchange g e2 (invokeSlotchange f e1 w))
  ∧ invokeSlotchange f e1 (invokeSlotchange f e2 w)
    = invokeSlotchange f e1 w
  ∧ document (invokeSlotchange f e1 w) = document w
  ∧ awaiting (invokeSlotchange f e1 w) = awaiting w
  ∧ frames (invokeSlotchange f e1 w) = frames w
  ∧ trace (invokeSlotchange f e1 w) = trace w.
Proof.
  intros Hf Hg.
  destruct w as [p doc parked pending effects].
  destruct f; try discriminate Hf; (split; [|by repeat split]);
    destruct g; try discriminate Hg; intros Hne; try (by destruct Hne);
    reflexivity.
Qed.

Lemma presence_listeners_commute_witness :
  invokeSlotchange H_handleFabSlotChange (slotchangeWith [1%nat])
    (invokeSlotchange H_handleFooterSlotChange (slotchangeWith [])
       (loaded initial))
  = invokeSlotchange H_handleFooterSlotChange (slotchangeWith [])
      (invokeSlotchange H_handleFabSlotChange (slotchangeWith [1%nat])
         (loaded initial)).
Proof.
  destruct (presence_listeners_commute H_handleFabSlotChange
              H_handleFooterSlotChange (slotchangeWith [1%nat])
              (slotchangeWith []) (loaded initial) eq_refl eq_refl)
    as [Hcommute _].
  apply Hcommute. discriminate.
Defined.

(** X24. The content wrapper's [ref] callback measures at once and keeps
    the observer on the current element only. After it ran with an
    element, the component holds that element as the resize handler
    leaves it, so [tabindex] already reflects the overflow, and an
    existing observer observes exactly that element; after it ran with
    [null], the component holds no element and an existing observer
    observes nothing. What the observer observed before never matters,
    and a platform without observers gets none. Disconnecting the
    component leaves the observer with nothing to observe. *)
Theorem scroll_ref_tracks_current_element
  (m : Mounted) (el : ScrollEl) :
  host (setPanelScrollEl (Some el) m)
  = resizeHandler (set_panelScrollEl (Some el) (host m))
  ∧ (∀ sh oh : Z,
       scrollHeight el = JNumber sh →
       offsetHeight el = JNumber oh →
       panelScrollEl (host (setPanelScrollEl (Some el) m))
         ≫= getAttribute "tabindex"
       = if bool_decide (sh > oh)%Z then Some "0" else None)
  ∧ observed <$> resizeObserver (setPanelScrollEl (Some el) m)
    = (λ _, [el]) <$> resizeObserver m
  ∧ panelScrollEl (host (setPanelScrollEl None m)) = None
  ∧ observed <$> resizeObserver (setPanelScrollEl None m)
    = (λ _, []) <$> resizeObserver m
  ∧ observed <$> resizeObserver (disconnectedCallback m)
    = (λ _, []) <$> resizeObserver m
  ∧ host (disconnectedCallback m) = host m.
Proof.
  split; [reflexivity|]. split.
  { intros sh oh Hsh Hoh. cbn. unfold resizeHandler. cbn.
    rewrite Hsh, Hoh.
    destruct (Z.gtb_spec sh oh) as [Hgt|Hle]; cbn.
    - rewrite bool_decide_eq_true_2 by lia.
      unfold getAttribute. cbn. apply lookup_insert_eq.
    - rewrite bool_decide_eq_false_2 by lia.
      unfold getAttribute. cbn. apply lookup_delete_eq. }
  destruct m as [p [o|]]; repeat split.
Qed.

Lemma scroll_ref_tracks_current_element_witness :
  panelScrollEl
    (host (setPanelScrollEl (Some (scrollEl 500 300))
             {| host := initial;
                resizeObserver := Some {| observed := [] |} |}))
    ≫= getAttribute "tabindex"
  = Some "0".
Proof.
  destruct (scroll_ref_tracks_current_element
              {| host := initial;
                 resizeObserver := Some {| observed := [] |} |}
              (scrollEl 500 300)) as (_ & Htab & _).
  apply (Htab 500 300); reflexivity.
Defined.
